(** * Purchase-state synchronisation layer

    A shallow embedding of the two TypeScript units that make up the purchase
    subsystem of the fitness-tracking app:

    - [expo/services/purchases.ts], the Promise-based facade over the
      RevenueCat SDK (module [PurchasesService] below);
    - the [PurchaseProvider] React context that holds the purchase session
      state and exposes the six operations (module [PurchaseContext] below).

    The vendor SDK is a black box: every SDK call is answered by an oracle
    ([Sdk]) that says whether the returned promise fulfils or rejects.
    The code under study is sequential between suspension points, so an
    [async] function is embedded as a computation in a monad that threads
    the observable world (React state cells, console, SDK call trace) and
    carries JavaScript's two completion kinds, normal and throw. *)

From stdpp Require Import base option gmap strings list.

Local Open Scope string_scope.

(** ** Vendor data (react-native-purchases) *)

(** One active entitlement, as [SubscriptionBadge] reads it. *)
Record PurchasesEntitlementInfo := {
  identifier : string;
  expirationDate : option string;
}.

(** [customerInfo.entitlements]: [active] is the object keyed by entitlement
    identifier; the map holds its own properties.  What a read [active[key]]
    finds beyond them is [property_read] below. *)
Record PurchasesEntitlementInfos := {
  active : gmap string PurchasesEntitlementInfo;
}.

Record CustomerInfo := {
  entitlements : PurchasesEntitlementInfos;
  originalAppUserId : string;
}.

Record PurchasesStoreProduct := {
  title : string;
  priceString : string;
}.

Record PurchasesPackage := {
  packageIdentifier : string;
  packageType : string;
  product : PurchasesStoreProduct;
}.

Record PurchasesOffering := {
  availablePackages : list PurchasesPackage;
}.

Record PurchasesOfferings := {
  current : option PurchasesOffering;
  all : gmap string PurchasesOffering;
}.

(** The value a vendor promise rejects with.  Both fields may be missing on
    the object ([None] is JavaScript's [undefined]). *)
Record PurchasesError := {
  userCancelled : option bool;
  message : option string;
}.

(** Results of [Purchases.purchasePackage] and [Purchases.logIn], which the
    facade destructures. *)
Record MakePurchaseResult := {
  purchase_customerInfo : CustomerInfo;
  productIdentifier : string;
}.

Record LogInResult := {
  login_customerInfo : CustomerInfo;
  created : bool;
}.

Inductive LOG_LEVEL := DEBUG | INFO.

#[global] Instance PurchasesEntitlementInfo_eq_dec : EqDecision PurchasesEntitlementInfo.
Proof. solve_decision. Defined.
#[global] Instance PurchasesEntitlementInfos_eq_dec : EqDecision PurchasesEntitlementInfos.
Proof. solve_decision. Defined.
#[global] Instance CustomerInfo_eq_dec : EqDecision CustomerInfo.
Proof. solve_decision. Defined.
#[global] Instance PurchasesError_eq_dec : EqDecision PurchasesError.
Proof. solve_decision. Defined.

(** ** JavaScript completions and truthiness *)

(** How a statement, or an awaited promise, ends. *)
Inductive Completion (A : Type) :=
  | Normal (a : A)
  | Throw (e : PurchasesError).
Arguments Normal {A} a.
Arguments Throw {A} e.

(** [!!s] for a string: the empty string is falsy. *)
Definition truthy_string (s : string) : bool := negb (String.eqb s "").

(** [!!b] for an optional boolean field. *)
Definition truthy_flag (b : option bool) : bool := default false b.

(** [v || fallback] where [v] is a string or [undefined]. *)
Definition or_else (v : option string) (fallback : string) : string :=
  match v with
  | Some s => if truthy_string s then s else fallback
  | None => fallback
  end.

(** [v !== undefined] *)
Definition defined {A} (v : option A) : bool :=
  match v with Some _ => true | None => false end.

(** ** Property reads on the [active] object *)

(** The property names every plain object inherits from
    [Object.prototype]: the seven of the language core and the five legacy
    accessors. *)
Definition Object_prototype_names : list string :=
  ["constructor"; "hasOwnProperty"; "isPrototypeOf"; "propertyIsEnumerable";
   "toLocaleString"; "toString"; "valueOf";
   "__proto__"; "__defineGetter__"; "__defineSetter__";
   "__lookupGetter__"; "__lookupSetter__"].

(** What [active[key]] evaluates to when it is not [undefined]: the entry
    stored under [key], or else the member of that name inherited from
    [Object.prototype]. *)
Inductive PropertyRead :=
  | OwnEntry (info : PurchasesEntitlementInfo)
  | InheritedMember (name : string).

(** [active[key]]: own properties first, then the prototype; [None] is
    [undefined]. *)
Definition property_read (active : gmap string PurchasesEntitlementInfo)
    (key : string) : option PropertyRead :=
  match active !! key with
  | Some info => Some (OwnEntry info)
  | None =>
      if decide (key ∈ Object_prototype_names) then Some (InheritedMember key)
      else None
  end.

(** ** The observable world *)

(** The five [useState] cells of [PurchaseProvider]. *)
Record PurchaseState := {
  isInitialized : bool;
  isLoading : bool;
  offerings : option PurchasesOfferings;
  customerInfo : option CustomerInfo;
  error : option string;
}.

Inductive ConsoleMethod := console_log | console_warn | console_error.

Record ConsoleEntry := {
  method : ConsoleMethod;
  text : string;
  detail : option PurchasesError;
}.

(** Calls that reached the SDK, in order. *)
Inductive SdkCall :=
  | CallSetLogLevel (l : LOG_LEVEL)
  | CallConfigure (apiKey : string)
  | CallGetOfferings
  | CallPurchasePackage (pkg : PurchasesPackage)
  | CallRestorePurchases
  | CallGetCustomerInfo
  | CallLogIn (userId : string)
  | CallLogOut.

Record World := {
  cells : PurchaseState;
  console : list ConsoleEntry;
  calls : list SdkCall;
}.

(** The vendor's answers.  One oracle describes the vendor during one
    operation; successive operations may face different oracles. *)
Record Sdk := {
  sdk_configure : string → Completion unit;
  sdk_getOfferings : Completion PurchasesOfferings;
  sdk_purchasePackage : PurchasesPackage → Completion MakePurchaseResult;
  sdk_restorePurchases : Completion CustomerInfo;
  sdk_getCustomerInfo : Completion CustomerInfo;
  sdk_logIn : string → Completion LogInResult;
  sdk_logOut : Completion CustomerInfo;
}.

(** Build-time and run-time configuration read by the facade. *)
Record Env := {
  __DEV__ : bool;
  Platform_OS : string;
  EXPO_PUBLIC_REVENUECAT_IOS_KEY : option string;
  EXPO_PUBLIC_REVENUECAT_ANDROID_KEY : option string;
}.

(** ** The effect monad *)

Definition Js (A : Type) : Type := World → Completion A * World.

Module JsMonad.

Definition ret {A} (a : A) : Js A := λ w, (Normal a, w).

Definition bind {A B} (c : Js A) (k : A → Js B) : Js B :=
  λ w, match c w with
       | (Normal a, w') => k a w'
       | (Throw e, w') => (Throw e, w')
       end.

Definition throw {A} (e : PurchasesError) : Js A := λ w, (Throw e, w).

(** [try { body } catch (err) { handler }] *)
Definition try_catch {A} (body : Js A) (handler : PurchasesError → Js A) : Js A :=
  λ w, match body w with
       | (Normal a, w') => (Normal a, w')
       | (Throw e, w') => handler e w'
       end.

(** [try { body } finally { fin }]: [fin] runs on both completions of
    [body]; the completion of [body] stands unless [fin] throws. *)
Definition try_finally {A} (body : Js A) (fin : Js unit) : Js A :=
  λ w, match body w with
       | (r, w') =>
           match fin w' with
           | (Normal _, w'') => (r, w'')
           | (Throw e, w'') => (Throw e, w'')
           end
       end.

(** [promise.catch(handler)] *)
Definition promise_catch {A} (p : Js A) (handler : PurchasesError → A) : Js A :=
  try_catch p (λ e, ret (handler e)).

(** [await] of a vendor promise: the oracle's answer becomes the
    completion, after the call has been recorded. *)
Definition vendor {A} (c : SdkCall) (answer : Completion A) : Js A :=
  λ w, (answer, {| cells := cells w; console := console w; calls := calls w ++ [c] |}).

Definition log (m : ConsoleMethod) (t : string) (d : option PurchasesError) : Js unit :=
  λ w, (Normal (),
        {| cells := cells w;
           console := console w ++ [{| method := m; text := t; detail := d |}];
           calls := calls w |}).

Definition modify_cells (f : PurchaseState → PurchaseState) : Js unit :=
  λ w, (Normal (), {| cells := f (cells w); console := console w; calls := calls w |}).

Definition when (b : bool) (c : Js unit) : Js unit := if b then c else ret ().

End JsMonad.

Import JsMonad.

Declare Scope js_scope.
Delimit Scope js_scope with js.
Notation "'let!' x ':=' c 'in' k" := (bind c (λ x, k))
  (at level 10, x name, c at level 100, k at level 200) : js_scope.
Notation "c ';;;' k" := (bind c (λ _, k))
  (at level 100, k at level 200, right associativity) : js_scope.
Local Open Scope js_scope.

(** ** [expo/services/purchases.ts] *)

Module PurchasesService.

Definition IOS_API_KEY (env : Env) : string :=
  or_else (EXPO_PUBLIC_REVENUECAT_IOS_KEY env) "".
Definition ANDROID_API_KEY (env : Env) : string :=
  or_else (EXPO_PUBLIC_REVENUECAT_ANDROID_KEY env) "".

Definition missing_key_warning : string :=
  "[Purchases] RevenueCat API key not configured. " ++
  "Set EXPO_PUBLIC_REVENUECAT_IOS_KEY or EXPO_PUBLIC_REVENUECAT_ANDROID_KEY".

(** [Platform.OS === 'ios' ? IOS_API_KEY : ANDROID_API_KEY] *)
Definition apiKey (env : Env) : string :=
  if String.eqb (Platform_OS env) "ios" then IOS_API_KEY env else ANDROID_API_KEY env.

(** [Purchases.setLogLevel] is a plain statement outside every [try]; the
    SDK answers it without a result. *)
Definition initializePurchases (env : Env) (sdk : Sdk) : Js unit :=
  (if __DEV__ env
   then vendor (CallSetLogLevel DEBUG) (Normal ())
   else vendor (CallSetLogLevel INFO) (Normal ())) ;;;
  if negb (truthy_string (apiKey env)) then
    log console_warn missing_key_warning None ;;;
    ret ()
  else
    try_catch
      (vendor (CallConfigure (apiKey env)) (sdk_configure sdk (apiKey env)) ;;;
       log console_log "[Purchases] RevenueCat initialized successfully" None)
      (λ error, log console_error "[Purchases] Failed to initialize:" (Some error)).

Definition getOfferings (sdk : Sdk) : Js (option PurchasesOfferings) :=
  try_catch
    (let! offerings := vendor CallGetOfferings (sdk_getOfferings sdk) in
     ret (Some offerings))
    (λ error,
       log console_error "[Purchases] Failed to get offerings:" (Some error) ;;;
       throw error).

Definition purchasePackage (sdk : Sdk) (pkg : PurchasesPackage) : Js CustomerInfo :=
  try_catch
    (let! result := vendor (CallPurchasePackage pkg) (sdk_purchasePackage sdk pkg) in
     ret (purchase_customerInfo result))
    (λ error,
       (if truthy_flag (userCancelled error)
        then log console_log "[Purchases] User cancelled purchase" None
        else log console_error "[Purchases] Purchase failed:" (Some error)) ;;;
       throw error).

Definition restorePurchases (sdk : Sdk) : Js CustomerInfo :=
  try_catch
    (let! customerInfo := vendor CallRestorePurchases (sdk_restorePurchases sdk) in
     ret customerInfo)
    (λ error,
       log console_error "[Purchases] Failed to restore purchases:" (Some error) ;;;
       throw error).

Definition getCustomerInfo (sdk : Sdk) : Js CustomerInfo :=
  try_catch
    (let! customerInfo := vendor CallGetCustomerInfo (sdk_getCustomerInfo sdk) in
     ret customerInfo)
    (λ error,
       log console_error "[Purchases] Failed to get customer info:" (Some error) ;;;
       throw error).

Definition hasEntitlement (sdk : Sdk) (entitlementId : string) : Js bool :=
  try_catch
    (let! customerInfo := vendor CallGetCustomerInfo (sdk_getCustomerInfo sdk) in
     ret (defined (property_read (active (entitlements customerInfo)) entitlementId)))
    (λ error,
       log console_error "[Purchases] Failed to check entitlement:" (Some error) ;;;
       ret false).

Definition identifyUser (sdk : Sdk) (userId : string) : Js CustomerInfo :=
  try_catch
    (let! result := vendor (CallLogIn userId) (sdk_logIn sdk userId) in
     ret (login_customerInfo result))
    (λ error,
       log console_error "[Purchases] Failed to identify user:" (Some error) ;;;
       throw error).

Definition logOutUser (sdk : Sdk) : Js CustomerInfo :=
  try_catch
    (let! customerInfo := vendor CallLogOut (sdk_logOut sdk) in
     ret customerInfo)
    (λ error,
       log console_error "[Purchases] Failed to log out:" (Some error) ;;;
       throw error).

End PurchasesService.

(** ** The [PurchaseProvider] context *)

Module PurchaseContext.

Record PurchaseProviderProps := {
  premiumEntitlementId : option string;
}.

(** The destructuring default [premiumEntitlementId = 'premium']. *)
Definition premiumEntitlementId_or_default (props : PurchaseProviderProps) : string :=
  default "premium" (premiumEntitlementId props).

(** The arguments of the five [useState] calls. *)
Definition initialState : PurchaseState :=
  {| isInitialized := false;
     isLoading := true;
     offerings := None;
     customerInfo := None;
     error := None |}.

Definition initialWorld : World :=
  {| cells := initialState; console := []; calls := [] |}.

Definition setIsInitialized (v : bool) : Js unit :=
  modify_cells (λ st,
    {| isInitialized := v; isLoading := isLoading st; offerings := offerings st;
       customerInfo := customerInfo st; error := error st |}).

Definition setIsLoading (v : bool) : Js unit :=
  modify_cells (λ st,
    {| isInitialized := isInitialized st; isLoading := v; offerings := offerings st;
       customerInfo := customerInfo st; error := error st |}).

Definition setOfferings (v : option PurchasesOfferings) : Js unit :=
  modify_cells (λ st,
    {| isInitialized := isInitialized st; isLoading := isLoading st; offerings := v;
       customerInfo := customerInfo st; error := error st |}).

Definition setCustomerInfo (v : option CustomerInfo) : Js unit :=
  modify_cells (λ st,
    {| isInitialized := isInitialized st; isLoading := isLoading st;
       offerings := offerings st; customerInfo := v; error := error st |}).

Definition setError (v : option string) : Js unit :=
  modify_cells (λ st,
    {| isInitialized := isInitialized st; isLoading := isLoading st;
       offerings := offerings st; customerInfo := customerInfo st; error := v |}).

(** [const isPremium =
      customerInfo?.entitlements.active[premiumEntitlementId] !== undefined] *)
Definition isPremium (props : PurchaseProviderProps) (st : PurchaseState) : bool :=
  defined (customerInfo st ≫= λ ci,
           property_read (active (entitlements ci))
             (premiumEntitlementId_or_default props)).

(** The body of the [checkEntitlement] callback, closed over the
    [customerInfo] of the render that created it. *)
Definition checkEntitlement (customerInfo : option CustomerInfo)
    (entitlementId : string) : bool :=
  defined (customerInfo ≫= λ ci,
           property_read (active (entitlements ci)) entitlementId).

(** The effect run once on mount.  [initialize] is the imported
    [initializePurchases]; the effect is written against any
    implementation of it. *)
Definition init_with (initialize : Js unit) (sdk : Sdk) : Js unit :=
  try_finally
    (try_catch
       (initialize ;;;
        setIsInitialized true ;;;
        let! offeringsData :=
          promise_catch (PurchasesService.getOfferings sdk) (λ _, None) in
        let! customerData :=
          promise_catch
            (let! info := PurchasesService.getCustomerInfo sdk in ret (Some info))
            (λ _, None) in
        setOfferings offeringsData ;;;
        setCustomerInfo customerData)
       (λ err,
          log console_error "[PurchaseContext] Initialization failed:" (Some err) ;;;
          setError (Some "Failed to initialize purchases")))
    (setIsLoading false).

Definition init (env : Env) (sdk : Sdk) : Js unit :=
  init_with (PurchasesService.initializePurchases env sdk) sdk.

Definition purchasePackage (sdk : Sdk) (pkg : PurchasesPackage) : Js bool :=
  setIsLoading true ;;;
  setError None ;;;
  try_finally
    (try_catch
       (let! info := PurchasesService.purchasePackage sdk pkg in
        setCustomerInfo (Some info) ;;;
        ret true)
       (λ err,
          when (negb (truthy_flag (userCancelled err)))
            (setError (Some (or_else (message err) "Purchase failed"))) ;;;
          ret false))
    (setIsLoading false).

Definition restorePurchases (sdk : Sdk) : Js bool :=
  setIsLoading true ;;;
  setError None ;;;
  try_finally
    (try_catch
       (let! info := PurchasesService.restorePurchases sdk in
        setCustomerInfo (Some info) ;;;
        ret true)
       (λ err,
          setError (Some (or_else (message err) "Failed to restore purchases")) ;;;
          ret false))
    (setIsLoading false).

Definition refreshCustomerInfo (sdk : Sdk) : Js unit :=
  try_catch
    (let! info := PurchasesService.getCustomerInfo sdk in
     setCustomerInfo (Some info))
    (λ err,
       log console_error "[PurchaseContext] Failed to refresh customer info:" (Some err)).

Definition login (sdk : Sdk) (userId : string) : Js unit :=
  try_catch
    (let! info := PurchasesService.identifyUser sdk userId in
     setCustomerInfo (Some info))
    (λ err, log console_error "[PurchaseContext] Login failed:" (Some err)).

Definition logout (sdk : Sdk) : Js unit :=
  try_catch
    (let! info := PurchasesService.logOutUser sdk in
     setCustomerInfo (Some info))
    (λ err, log console_error "[PurchaseContext] Logout failed:" (Some err)).

(** *** What a render publishes *)

(** The state part of [PurchaseContextType] and the one synchronous
    action; the five asynchronous actions are the definitions above. *)
Record PurchaseContextType := {
  ctx_isInitialized : bool;
  ctx_isLoading : bool;
  ctx_offerings : option PurchasesOfferings;
  ctx_customerInfo : option CustomerInfo;
  ctx_isPremium : bool;
  ctx_error : option string;
  ctx_checkEntitlement : string → bool;
}.

(** [useCallback(fn, deps)]: the hook keeps the callback of an earlier
    render for as long as the dependencies compare equal, and takes the
    callback of the current render otherwise. *)
Definition useCallback {D F : Type} `{EqDecision D}
    (kept : option (D * F)) (fn : F) (deps : D) : D * F :=
  match kept with
  | Some (d, f) => if decide (d = deps) then (d, f) else (deps, fn)
  | None => (deps, fn)
  end.

Record Rendered := {
  value : PurchaseContextType;
  hook_checkEntitlement : option CustomerInfo * (string → bool);
}.

(** One evaluation of the component body over the current cells. *)
Definition render (props : PurchaseProviderProps) (st : PurchaseState)
    (kept : option (option CustomerInfo * (string → bool))) : Rendered :=
  let hook := useCallback kept (checkEntitlement (customerInfo st)) (customerInfo st) in
  {| value :=
       {| ctx_isInitialized := isInitialized st;
          ctx_isLoading := isLoading st;
          ctx_offerings := offerings st;
          ctx_customerInfo := customerInfo st;
          ctx_isPremium := isPremium props st;
          ctx_error := error st;
          ctx_checkEntitlement := hook.2 |};
     hook_checkEntitlement := hook |}.

(** A consumer calling [checkEntitlement(id)] on the published value: a
    synchronous call whose body contains no setter. *)
Definition invoke_checkEntitlement (ctx : PurchaseContextType)
    (entitlementId : string) : Js bool :=
  ret (ctx_checkEntitlement ctx entitlementId).

(** The cells change only through the five setters. *)
Inductive SetterCall :=
  | SetIsInitialized (v : bool)
  | SetIsLoading (v : bool)
  | SetOfferings (v : option PurchasesOfferings)
  | SetCustomerInfo (v : option CustomerInfo)
  | SetError (v : option string).

Definition run_setter (c : SetterCall) : Js unit :=
  match c with
  | SetIsInitialized v => setIsInitialized v
  | SetIsLoading v => setIsLoading v
  | SetOfferings v => setOfferings v
  | SetCustomerInfo v => setCustomerInfo v
  | SetError v => setError v
  end.

Fixpoint run_setters (batch : list SetterCall) : Js unit :=
  match batch with
  | [] => ret ()
  | c :: rest => run_setter c ;;; run_setters rest
  end.

Definition after_setters (batch : list SetterCall) (st : PurchaseState) : PurchaseState :=
  cells (run_setters batch {| cells := st; console := []; calls := [] |}).2.

(** The renders of one mounted provider: the first one over the initial
    cells, then one after every batch of setter calls, whichever
    operations, in flight or finished, issued them. *)
Inductive renders (props : PurchaseProviderProps) : PurchaseState → Rendered → Prop :=
  | renders_mount :
      renders props initialState (render props initialState None)
  | renders_update st r batch :
      renders props st r →
      renders props (after_setters batch st)
        (render props (after_setters batch st) (Some (hook_checkEntitlement r))).

End PurchaseContext.

(** ** Sample data

    The snapshots, packages and vendor answers of the scenarios the
    properties are exercised on. *)

Module Scenario.

Definition premiumInfo : PurchasesEntitlementInfo :=
  {| identifier := "premium"; expirationDate := Some "2026-01-01" |}.

Definition premiumSnapshot : CustomerInfo :=
  {| entitlements := {| active := {[ "premium" := premiumInfo ]} |};
     originalAppUserId := "user-1" |}.

Definition emptySnapshot : CustomerInfo :=
  {| entitlements := {| active := ∅ |}; originalAppUserId := "user-1" |}.

Definition pkgAnnual : PurchasesPackage :=
  {| packageIdentifier := "$rc_annual"; packageType := "ANNUAL";
     product := {| title := "Premium (yearly)"; priceString := "$59.99" |} |}.

Definition catalog : PurchasesOfferings :=
  {| current := Some {| availablePackages := [pkgAnnual] |}; all := ∅ |}.

Definition cancelled : PurchasesError :=
  {| userCancelled := Some true; message := Some "Purchase was cancelled." |}.

Definition declined : PurchasesError :=
  {| userCancelled := Some false; message := Some "Card declined" |}.

Definition offline : PurchasesError :=
  {| userCancelled := None; message := Some "Network error" |}.

Definition bought : MakePurchaseResult :=
  {| purchase_customerInfo := premiumSnapshot; productIdentifier := "premium_annual" |}.

(** A vendor that is reachable and knows a premium customer. *)
Definition online : Sdk :=
  {| sdk_configure := λ _, Normal ();
     sdk_getOfferings := Normal catalog;
     sdk_purchasePackage := λ _, Normal bought;
     sdk_restorePurchases := Normal premiumSnapshot;
     sdk_getCustomerInfo := Normal premiumSnapshot;
     sdk_logIn := λ _, Normal {| login_customerInfo := premiumSnapshot; created := false |};
     sdk_logOut := Normal emptySnapshot |}.

(** A vendor every call to which rejects with [e]. *)
Definition failing (e : PurchasesError) : Sdk :=
  {| sdk_configure := λ _, Throw e;
     sdk_getOfferings := Throw e;
     sdk_purchasePackage := λ _, Throw e;
     sdk_restorePurchases := Throw e;
     sdk_getCustomerInfo := Throw e;
     sdk_logIn := λ _, Throw e;
     sdk_logOut := Throw e |}.

(** The vendor of the start-up scenario: configured, catalogue served,
    customer-info fetch rejected. *)
Definition catalog_only : Sdk :=
  {| sdk_configure := λ _, Normal ();
     sdk_getOfferings := Normal catalog;
     sdk_purchasePackage := λ _, Throw offline;
     sdk_restorePurchases := Throw offline;
     sdk_getCustomerInfo := Throw offline;
     sdk_logIn := λ _, Throw offline;
     sdk_logOut := Throw offline |}.

(** A vendor whose restore finds nothing to restore. *)
Definition nothing_to_restore : Sdk :=
  {| sdk_configure := λ _, Normal ();
     sdk_getOfferings := Normal catalog;
     sdk_purchasePackage := λ _, Normal bought;
     sdk_restorePurchases := Normal emptySnapshot;
     sdk_getCustomerInfo := Normal emptySnapshot;
     sdk_logIn := λ _, Normal {| login_customerInfo := emptySnapshot; created := true |};
     sdk_logOut := Normal emptySnapshot |}.

Definition ios : Env :=
  {| __DEV__ := true; Platform_OS := "ios";
     EXPO_PUBLIC_REVENUECAT_IOS_KEY := Some "appl_key";
     EXPO_PUBLIC_REVENUECAT_ANDROID_KEY := None |}.

(** An Android build for which no key was set. *)
Definition android_without_key : Env :=
  {| __DEV__ := false; Platform_OS := "android";
     EXPO_PUBLIC_REVENUECAT_IOS_KEY := Some "appl_key";
     EXPO_PUBLIC_REVENUECAT_ANDROID_KEY := None |}.

Definition defaultProps : PurchaseContext.PurchaseProviderProps :=
  {| PurchaseContext.premiumEntitlementId := None |}.

(** The world once a purchase has been declined: the paywall shows the
    vendor's message. *)
Definition after_declined_purchase : World :=
  (PurchaseContext.purchasePackage (failing declined) pkgAnnual
     PurchaseContext.initialWorld).2.

(** A vendor that rejects [configure] and answers everything else. *)
Definition unconfigurable : Sdk :=
  {| sdk_configure := λ _, Throw offline;
     sdk_getOfferings := Normal catalog;
     sdk_purchasePackage := λ _, Normal bought;
     sdk_restorePurchases := Normal premiumSnapshot;
     sdk_getCustomerInfo := Normal premiumSnapshot;
     sdk_logIn := λ _, Normal {| login_customerInfo := premiumSnapshot; created := false |};
     sdk_logOut := Normal emptySnapshot |}.

(** A provider whose premium entitlement is named like an inherited
    property. *)
Definition constructorProps : PurchaseContext.PurchaseProviderProps :=
  {| PurchaseContext.premiumEntitlementId := Some "constructor" |}.

Definition pkgMonthly : PurchasesPackage :=
  {| packageIdentifier := "$rc_monthly"; packageType := "MONTHLY";
     product := {| title := "Premium (monthly)"; priceString := "$6.99" |} |}.

(** A vendor whose current offering has two plans. *)
Definition two_plans : Sdk :=
  {| sdk_configure := λ _, Normal ();
     sdk_getOfferings :=
       Normal {| current := Some {| availablePackages := [pkgAnnual; pkgMonthly] |};
                 all := ∅ |};
     sdk_purchasePackage := λ _, Normal bought;
     sdk_restorePurchases := Normal premiumSnapshot;
     sdk_getCustomerInfo := Normal emptySnapshot;
     sdk_logIn := λ _, Normal {| login_customerInfo := emptySnapshot; created := true |};
     sdk_logOut := Normal emptySnapshot |}.

End Scenario.

(** ** Sequences of provider operations *)

Module Session.

(** The five asynchronous actions a consumer can start once the provider
    is mounted. *)
Inductive Operation :=
  | Purchase (pkg : PurchasesPackage)
  | Restore
  | Refresh
  | Login (userId : string)
  | Logout.

(** One action, awaited to completion against the vendor as it answers at
    that moment; the boolean of purchase and restore is dropped. *)
Definition perform (op : Operation) (sdk : Sdk) : Js unit :=
  match op with
  | Purchase pkg => PurchaseContext.purchasePackage sdk pkg ;;; ret ()
  | Restore => PurchaseContext.restorePurchases sdk ;;; ret ()
  | Refresh => PurchaseContext.refreshCustomerInfo sdk
  | Login userId => PurchaseContext.login sdk userId
  | Logout => PurchaseContext.logout sdk
  end.

Fixpoint perform_all (steps : list (Operation * Sdk)) : Js unit :=
  match steps with
  | [] => ret ()
  | (op, sdk) :: rest => perform op sdk ;;; perform_all rest
  end.

(** The SDK call an action stands for. *)
Definition call_of (op : Operation) : SdkCall :=
  match op with
  | Purchase pkg => CallPurchasePackage pkg
  | Restore => CallRestorePurchases
  | Refresh => CallGetCustomerInfo
  | Login userId => CallLogIn userId
  | Logout => CallLogOut
  end.

(** The snapshot the vendor hands back for an action, if it fulfils. *)
Definition answer_of (op : Operation) (sdk : Sdk) : Completion CustomerInfo :=
  match op with
  | Purchase pkg =>
      match sdk_purchasePackage sdk pkg with
      | Normal res => Normal (purchase_customerInfo res)
      | Throw e => Throw e
      end
  | Restore => sdk_restorePurchases sdk
  | Refresh => sdk_getCustomerInfo sdk
  | Login userId =>
      match sdk_logIn sdk userId with
      | Normal res => Normal (login_customerInfo res)
      | Throw e => Throw e
      end
  | Logout => sdk_logOut sdk
  end.

(** The snapshot the vendor fulfilled with last, over a run of actions,
    starting from the one held; rejected actions do not count. *)
Definition latest_snapshot (held : option CustomerInfo)
    (steps : list (Operation * Sdk)) : option CustomerInfo :=
  foldl (λ acc step,
           match answer_of step.1 step.2 with
           | Normal snapshot => Some snapshot
           | Throw _ => acc
           end) held steps.

(** Mount, then a run of actions one after the other. *)
Definition session (env : Env) (sdk : Sdk) (steps : list (Operation * Sdk)) : Js unit :=
  PurchaseContext.init env sdk ;;; perform_all steps.

End Session.

(** ** The [usePurchases] hook *)

(** [useContext] yields [undefined] outside a provider; the hook then
    throws an [Error] carrying only a message. *)
Definition usePurchases (context : option PurchaseContext.PurchaseContextType)
    : Completion PurchaseContext.PurchaseContextType :=
  match context with
  | Some value => Normal value
  | None =>
      Throw {| userCancelled := None;
               message := Some "usePurchases must be used within a PurchaseProvider" |}
  end.

(** ** Consumers of the context *)

(** The optional callback props of the consumer components.  What a
    callback does is the host screen's business; here it is a named event. *)
Inductive Callback := OnSuccess | OnError | OnPurchaseSuccess | OnClose.

Inductive UiEvent :=
  | AlertShown (title body : string) (okHandler : option Callback)
  | Invoked (cb : Callback) (argument : option string).

(** What an event handler of a component can change: the provider's world,
    the component's own [useState] cells, and what the user gets to see. *)
Record Screen (L : Type) := {
  world : World;
  local : L;
  events : list UiEvent;
}.
Arguments world {L} s.
Arguments local {L} s.
Arguments events {L} s.

Definition Handler (L A : Type) : Type := Screen L → Completion A * Screen L.

Definition ui_ret {L A} (a : A) : Handler L A := λ s, (Normal a, s).

Definition ui_bind {L A B} (c : Handler L A) (k : A → Handler L B) : Handler L B :=
  λ s, match c s with
       | (Normal a, s') => k a s'
       | (Throw e, s') => (Throw e, s')
       end.

Definition ui_try_catch {L A} (body : Handler L A)
    (handler : PurchasesError → Handler L A) : Handler L A :=
  λ s, match body s with
       | (Normal a, s') => (Normal a, s')
       | (Throw e, s') => handler e s'
       end.

Definition ui_try_finally {L A} (body : Handler L A) (fin : Handler L unit)
    : Handler L A :=
  λ s, match body s with
       | (r, s') =>
           match fin s' with
           | (Normal _, s'') => (r, s'')
           | (Throw e, s'') => (Throw e, s'')
           end
       end.

(** [await] of a context action. *)
Definition lift {L A} (c : Js A) : Handler L A :=
  λ s, match c (world s) with
       | (r, w') => (r, {| world := w'; local := local s; events := events s |})
       end.

Definition set_local {L} (f : L → L) : Handler L unit :=
  λ s, (Normal (), {| world := world s; local := f (local s); events := events s |}).

Definition emit {L} (e : UiEvent) : Handler L unit :=
  λ s, (Normal (), {| world := world s; local := local s; events := events s ++ [e] |}).

(** [callback?.(argument)] *)
Definition call_optional {L} (provided : bool) (cb : Callback)
    (argument : option string) : Handler L unit :=
  if provided then emit (Invoked cb argument) else ui_ret ().

Declare Scope ui_scope.
Delimit Scope ui_scope with ui.
Notation "'let!' x ':=' c 'in' k" := (ui_bind c (λ x, k))
  (at level 10, x name, c at level 100, k at level 200) : ui_scope.
Notation "c ';;;' k" := (ui_bind c (λ _, k))
  (at level 100, k at level 200, right associativity) : ui_scope.

(** *** [components/purchase/RestorePurchasesButton.tsx] *)

Module RestorePurchasesButton.

Local Open Scope ui_scope.

(** Which of the optional callbacks the host passed. *)
Record RestorePurchasesButtonProps := {
  onSuccess : bool;
  onError : bool;
  label : option string;
}.

(** The component's one cell, [isRestoring]. *)
Definition setIsRestoring (v : bool) : Handler bool unit := set_local (λ _, v).

(** [handleRestore] as created by a render that read [ctx] from
    [usePurchases()]: [isPremium] is the constant of that render. *)
Definition handleRestore (props : RestorePurchasesButtonProps)
    (ctx : PurchaseContext.PurchaseContextType) (sdk : Sdk) : Handler bool unit :=
  setIsRestoring true ;;;
  ui_try_finally
    (ui_try_catch
       (let! success := lift (PurchaseContext.restorePurchases sdk) in
        if success && PurchaseContext.ctx_isPremium ctx then
          emit (AlertShown "Purchases Restored"
                  "Your purchases have been successfully restored."
                  (if onSuccess props then Some OnSuccess else None))
        else
          emit (AlertShown "No Purchases Found"
                  "We could not find any previous purchases to restore." None))
       (λ error,
          let message := or_else (message error) "Failed to restore purchases" in
          emit (AlertShown "Error" message None) ;;;
          call_optional (onError props) OnError (Some message)))
    (setIsRestoring false).

(** What the button shows. *)
Inductive ButtonContent := Spinner | Label (text : string).

Record ButtonView := {
  disabled : bool;
  content : ButtonContent;
}.

Definition render (props : RestorePurchasesButtonProps) (isRestoring : bool) : ButtonView :=
  {| disabled := isRestoring;
     content := if isRestoring then Spinner
                else Label (default "Restore Purchases" (label props)) |}.

End RestorePurchasesButton.

(** *** [components/purchase/SubscriptionBadge.tsx] *)

Module SubscriptionBadge.

Record SubscriptionBadgeProps := {
  premiumLabel : option string;
  freeLabel : option string;
  showExpiry : option bool;
}.

Inductive BadgeView :=
  | LoadingBadge
  | PremiumBadge (label : string) (expiry : option string)
  | FreeBadge (label : string).

(** The component body.  [toLocaleDateString] stands for
    [new Date(d).toLocaleDateString()], which depends on the device. *)
Definition render (toLocaleDateString : string → string)
    (props : SubscriptionBadgeProps)
    (ctx : PurchaseContext.PurchaseContextType) : BadgeView :=
  if PurchaseContext.ctx_isLoading ctx then LoadingBadge
  else
    let activeEntitlement :=
      PurchaseContext.ctx_customerInfo ctx ≫= λ ci,
        active (entitlements ci) !! "premium" in
    let expirationDate := activeEntitlement ≫= expirationDate in
    let formattedExpiry :=
      match expirationDate with
      | Some d => if truthy_string d then Some (toLocaleDateString d) else None
      | None => None
      end in
    if PurchaseContext.ctx_isPremium ctx then
      PremiumBadge (default "Premium" (premiumLabel props))
        (if default false (showExpiry props) then
           match formattedExpiry with
           | Some f => if truthy_string f then Some ("Renews " ++ f) else None
           | None => None
           end
         else None)
    else FreeBadge (default "Free" (freeLabel props)).

End SubscriptionBadge.

(** *** The paywall screen ([PaywallScreen]) *)

(** [pkg.product.title] *)
Definition product_title (pkg : PurchasesPackage) : string := title (product pkg).

Module PaywallScreen.

Local Open Scope ui_scope.

Record PaywallScreenProps := {
  onPurchaseSuccess : bool;
  onClose : bool;
  title : option string;
  subtitle : option string;
  features : option (list string);
}.

(** The component's two cells. *)
Record PaywallState := {
  selectedPackage : option PurchasesPackage;
  isPurchasing : bool;
}.

Definition setSelectedPackage (v : option PurchasesPackage) : Handler PaywallState unit :=
  set_local (λ st, {| selectedPackage := v; isPurchasing := isPurchasing st |}).

Definition setIsPurchasing (v : bool) : Handler PaywallState unit :=
  set_local (λ st, {| selectedPackage := selectedPackage st; isPurchasing := v |}).

(** [offerings?.current?.availablePackages || []] *)
Definition packages (ctx : PurchaseContext.PurchaseContextType) : list PurchasesPackage :=
  match PurchaseContext.ctx_offerings ctx ≫= current with
  | Some offering => availablePackages offering
  | None => []
  end.

(** [handlePurchase] as created by a render whose [selectedPackage] cell
    held [selected]. *)
Definition handlePurchase (props : PaywallScreenProps)
    (selected : option PurchasesPackage) (sdk : Sdk) : Handler PaywallState unit :=
  match selected with
  | None => ui_ret ()
  | Some pkg =>
      setIsPurchasing true ;;;
      let! success := lift (PurchaseContext.purchasePackage sdk pkg) in
      setIsPurchasing false ;;;
      if success then call_optional (onPurchaseSuccess props) OnPurchaseSuccess None
      else ui_ret ()
  end.

Definition handleRestore (sdk : Sdk) : Handler PaywallState unit :=
  setIsPurchasing true ;;;
  (let! _ := lift (PurchaseContext.restorePurchases sdk) in ui_ret ()) ;;;
  setIsPurchasing false.

Definition formatPrice (pkg : PurchasesPackage) : string :=
  let price := priceString (product pkg) in
  let period := packageType pkg in
  if String.eqb period "ANNUAL" then price ++ "/year"
  else if String.eqb period "MONTHLY" then price ++ "/month"
  else if String.eqb period "WEEKLY" then price ++ "/week"
  else if String.eqb period "LIFETIME" then price ++ " one-time"
  else price.

(** One package card of the list. *)
Record PackageCard := {
  card_key : string;
  card_selected : bool;
  card_title : string;
  card_price : string;
  card_bestValue : bool;
}.

Definition card (selected : option PurchasesPackage) (pkg : PurchasesPackage) : PackageCard :=
  {| card_key := packageIdentifier pkg;
     card_selected :=
       match selected with
       | Some s => String.eqb (packageIdentifier s) (packageIdentifier pkg)
       | None => false
       end;
     card_title :=
       if String.eqb (packageType pkg) "ANNUAL" then "Annual"
       else if String.eqb (packageType pkg) "MONTHLY" then "Monthly"
       else product_title pkg;
     card_price := formatPrice pkg;
     card_bestValue := String.eqb (packageType pkg) "ANNUAL" |}.

Inductive PurchaseButtonContent := ButtonSpinner | ButtonText (text : string).

Record Paywall := {
  closeButton : bool;
  heading : string;
  subheading : string;
  featureList : list string;
  cards : list PackageCard;
  errorText : option string;
  purchaseDisabled : bool;
  purchaseContent : PurchaseButtonContent;
}.

Inductive View := LoadingView | PaywallView (p : Paywall).

Definition default_features : list string :=
  ["Unlimited access"; "Ad-free experience"; "Priority support"; "Exclusive content"].

(** The component body, over the context value and the two cells. *)
Definition render (props : PaywallScreenProps)
    (ctx : PurchaseContext.PurchaseContextType) (st : PaywallState) : View :=
  if PurchaseContext.ctx_isLoading ctx then LoadingView
  else
    PaywallView
      {| closeButton := onClose props;
         heading := default "Unlock Premium" (title props);
         subheading := default "Get access to all features" (subtitle props);
         featureList := default default_features (features props);
         cards := card (selectedPackage st) <$> packages ctx;
         errorText :=
           match PurchaseContext.ctx_error ctx with
           | Some e => if truthy_string e then Some e else None
           | None => None
           end;
         purchaseDisabled := negb (defined (selectedPackage st)) || isPurchasing st;
         purchaseContent :=
           if isPurchasing st then ButtonSpinner
           else match selectedPackage st with
                | Some pkg => ButtonText ("Subscribe " ++ formatPrice pkg)
                | None => ButtonText "Select a plan"
                end |}.

End PaywallScreen.

(** * Properties *)

Import PurchaseContext.

(** ** Running the embedded code *)

Ltac js_unfold :=
  unfold PurchaseContext.init, init_with,
    PurchaseContext.purchasePackage, PurchaseContext.restorePurchases,
    refreshCustomerInfo, login, logout, invoke_checkEntitlement,
    PurchasesService.initializePurchases, PurchasesService.getOfferings,
    PurchasesService.purchasePackage, PurchasesService.restorePurchases,
    PurchasesService.getCustomerInfo, PurchasesService.identifyUser,
    PurchasesService.logOutUser,
    setIsInitialized, setIsLoading, setOfferings, setCustomerInfo, setError,
    promise_catch, try_finally, try_catch, when, vendor, log, modify_cells,
    throw, bind, ret.

Ltac js_run := js_unfold; cbn.

(** The facade functions add to the console and the call trace only. *)
Definition same_cells {A} (c : Js A) : Prop := ∀ w, cells (c w).2 = cells w.

Lemma service_purchasePackage_cells sdk pkg :
  same_cells (PurchasesService.purchasePackage sdk pkg).
Proof.
  intros w. js_run.
  destruct (sdk_purchasePackage sdk pkg) as [res|[[[]|] msg]]; reflexivity.
Qed.

Lemma service_initializePurchases_cells env sdk :
  same_cells (PurchasesService.initializePurchases env sdk).
Proof.
  intros w. js_run.
  destruct (__DEV__ env); cbn;
    destruct (truthy_string (PurchasesService.apiKey env)); cbn; try done;
    by destruct (sdk_configure sdk _).
Qed.

(** What the provider's [purchasePackage] leaves in the cells, by vendor
    answer. *)
Lemma purchasePackage_cells sdk pkg w :
  cells (PurchaseContext.purchasePackage sdk pkg w).2 =
  match sdk_purchasePackage sdk pkg with
  | Normal res =>
      {| isInitialized := isInitialized (cells w); isLoading := false;
         offerings := offerings (cells w);
         customerInfo := Some (purchase_customerInfo res); error := None |}
  | Throw e =>
      {| isInitialized := isInitialized (cells w); isLoading := false;
         offerings := offerings (cells w); customerInfo := customerInfo (cells w);
         error := if truthy_flag (userCancelled e) then None
                  else Some (or_else (message e) "Purchase failed") |}
  end.
Proof.
  js_run. destruct (sdk_purchasePackage sdk pkg) as [res|[[[]|] msg]]; reflexivity.
Qed.

Lemma purchasePackage_result sdk pkg w :
  (PurchaseContext.purchasePackage sdk pkg w).1 =
  match sdk_purchasePackage sdk pkg with
  | Normal _ => Normal true
  | Throw _ => Normal false
  end.
Proof.
  js_run. destruct (sdk_purchasePackage sdk pkg) as [res|[[[]|] msg]]; reflexivity.
Qed.

Lemma restorePurchases_cells sdk w :
  cells (PurchaseContext.restorePurchases sdk w).2 =
  match sdk_restorePurchases sdk with
  | Normal info =>
      {| isInitialized := isInitialized (cells w); isLoading := false;
         offerings := offerings (cells w); customerInfo := Some info; error := None |}
  | Throw e =>
      {| isInitialized := isInitialized (cells w); isLoading := false;
         offerings := offerings (cells w); customerInfo := customerInfo (cells w);
         error := Some (or_else (message e) "Failed to restore purchases") |}
  end.
Proof. js_run. destruct (sdk_restorePurchases sdk); reflexivity. Qed.

Lemma restorePurchases_result sdk w :
  (PurchaseContext.restorePurchases sdk w).1 =
  match sdk_restorePurchases sdk with
  | Normal _ => Normal true
  | Throw _ => Normal false
  end.
Proof. js_run. destruct (sdk_restorePurchases sdk); reflexivity. Qed.

(** A read of [active[key]] is defined for the keys of the object and for
    the names it inherits. *)
Lemma property_read_defined (o : gmap string PurchasesEntitlementInfo) key :
  defined (property_read o key) = true ↔ key ∈ dom o ∨ key ∈ Object_prototype_names.
Proof.
  unfold property_read. rewrite elem_of_dom.
  destruct (o !! key) as [info|] eqn:Hown; cbn.
  - split; [eauto|done].
  - destruct (decide (key ∈ Object_prototype_names)) as [Hin|Hout]; cbn.
    + split; [eauto|done].
    + split; [done|]. intros [[x Hx]|Hin]; [discriminate|done].
Qed.

(** What the two reads of the provider compute. *)
Lemma checkEntitlement_spec ci id :
  checkEntitlement ci id = true ↔
  ∃ info, ci = Some info ∧
    (id ∈ dom (active (entitlements info)) ∨ id ∈ Object_prototype_names).
Proof.
  unfold checkEntitlement. destruct ci as [info|]; cbn.
  - rewrite property_read_defined. split.
    + eauto.
    + by intros (i & [= <-] & H).
  - split; [done|]. by intros (? & ? & ?).
Qed.

Lemma isPremium_checkEntitlement props st :
  isPremium props st =
  checkEntitlement (customerInfo st) (premiumEntitlementId_or_default props).
Proof. reflexivity. Qed.

(** The start-up effect, by the completion of the awaited initialiser. *)
Lemma init_with_result initialize sdk w :
  (init_with initialize sdk w).1 = Normal ().
Proof.
  js_run. destruct (initialize w) as [[[]|e] w1]; cbn; [|reflexivity].
  destruct (sdk_getOfferings sdk), (sdk_getCustomerInfo sdk); reflexivity.
Qed.

Lemma init_with_cells initialize sdk w :
  cells (init_with initialize sdk w).2 =
  match initialize w with
  | (Normal _, w1) =>
      {| isInitialized := true; isLoading := false;
         offerings :=
           match sdk_getOfferings sdk with Normal o => Some o | Throw _ => None end;
         customerInfo :=
           match sdk_getCustomerInfo sdk with Normal c => Some c | Throw _ => None end;
         error := error (cells w1) |}
  | (Throw _, w1) =>
      {| isInitialized := isInitialized (cells w1); isLoading := false;
         offerings := offerings (cells w1); customerInfo := customerInfo (cells w1);
         error := Some "Failed to initialize purchases" |}
  end.
Proof.
  js_run. destruct (initialize w) as [[[]|e] w1]; cbn; [|reflexivity].
  destruct (sdk_getOfferings sdk), (sdk_getCustomerInfo sdk); reflexivity.
Qed.

Lemma initializePurchases_result env sdk w :
  (PurchasesService.initializePurchases env sdk w).1 = Normal ().
Proof.
  js_run.
  destruct (__DEV__ env); cbn;
    destruct (truthy_string (PurchasesService.apiKey env)); cbn; try reflexivity;
    destruct (sdk_configure sdk _) as [[]|]; reflexivity.
Qed.

Lemma init_cells env sdk w :
  cells (PurchaseContext.init env sdk w).2 =
  {| isInitialized := true; isLoading := false;
     offerings :=
       match sdk_getOfferings sdk with Normal o => Some o | Throw _ => None end;
     customerInfo :=
       match sdk_getCustomerInfo sdk with Normal c => Some c | Throw _ => None end;
     error := error (cells w) |}.
Proof.
  unfold PurchaseContext.init. rewrite init_with_cells.
  pose proof (initializePurchases_result env sdk w) as Hr.
  pose proof (service_initializePurchases_cells env sdk w) as Hc.
  destruct (PurchasesService.initializePurchases env sdk w) as [[[]|e] w1];
    cbn in Hr, Hc; [by rewrite Hc|discriminate].
Qed.

(** Any change of the cells is the effect of some batch of setter calls, so
    the render that follows an operation, or a part of one, is among
    [renders]. *)
Lemma after_setters_any st st' :
  after_setters
    [SetIsInitialized (isInitialized st'); SetIsLoading (isLoading st');
     SetOfferings (offerings st'); SetCustomerInfo (customerInfo st');
     SetError (error st')] st = st'.
Proof. by destruct st'. Qed.

Lemma renders_after {A} props (op : Js A) w r :
  renders props (cells w) r →
  renders props (cells (op w).2)
    (render props (cells (op w).2) (Some (hook_checkEntitlement r))).
Proof.
  intros Hr. rewrite <- (after_setters_any (cells w) (cells (op w).2)).
  by apply renders_update.
Qed.

(** The callback a render publishes is closed over the snapshot that render
    read: the memoisation never hands out a callback over an older one. *)
Lemma renders_hook_current props st r :
  renders props st r →
  (hook_checkEntitlement r).1 = customerInfo st ∧
  ∀ id, (hook_checkEntitlement r).2 id = checkEntitlement (customerInfo st) id.
Proof.
  induction 1 as [|st r batch Hr [IHd IHf]]; [by split|].
  set (st' := after_setters batch st).
  destruct (hook_checkEntitlement r) as [d f] eqn:Hhook; cbn in IHd, IHf.
  unfold render, useCallback; cbn.
  destruct (decide (d = customerInfo st')) as [Heq|Hne]; cbn.
  - split; [done|]. intros id. rewrite IHf. by rewrite <- Heq, <- IHd.
  - by split.
Qed.

Lemma renders_value props st r :
  renders props st r →
  ctx_customerInfo (value r) = customerInfo st ∧
  ctx_isPremium (value r) = isPremium props st ∧
  ctx_error (value r) = error st ∧
  ctx_isLoading (value r) = isLoading st ∧
  ∀ id, ctx_checkEntitlement (value r) id = checkEntitlement (customerInfo st) id.
Proof.
  intros Hr. pose proof (renders_hook_current _ _ _ Hr) as [_ Hf].
  destruct Hr; repeat split; try reflexivity; exact Hf.
Qed.

(** ** Purchase: user cancellation *)

(** C1, as the code has it.  When the vendor purchase call rejects with
    [userCancelled] true, [purchasePackage] returns false and leaves
    [lastError] absent: the attempt cleared it on entry and a cancellation
    does not set it.  So [lastError] equals its value from before the call
    exactly when that value was absent. *)
Theorem purchasePackage_user_cancelled sdk pkg e w :
  sdk_purchasePackage sdk pkg = Throw e →
  userCancelled e = Some true →
  let out := PurchaseContext.purchasePackage sdk pkg w in
  out.1 = Normal false ∧
  error (cells out.2) = None ∧
  (error (cells w) = None → error (cells out.2) = error (cells w)).
Proof.
  intros Hv Hc out. subst out.
  rewrite purchasePackage_result, purchasePackage_cells, Hv, Hc. cbn.
  repeat split. by intros ->.
Qed.

Lemma purchasePackage_user_cancelled_witness :
  let out :=
    PurchaseContext.purchasePackage (Scenario.failing Scenario.cancelled)
      Scenario.pkgAnnual initialWorld in
  out.1 = Normal false ∧
  error (cells out.2) = None ∧
  (error (cells initialWorld) = None → error (cells out.2) = error (cells initialWorld)).
Proof.
  apply (purchasePackage_user_cancelled (Scenario.failing Scenario.cancelled)
           Scenario.pkgAnnual Scenario.cancelled initialWorld); reflexivity.
Defined.

(** C1 as stated fails: a cancelled purchase that follows a declined one
    erases the message the declined one had left. *)
Lemma purchasePackage_cancel_erases_earlier_error :
  let before := Scenario.after_declined_purchase in
  let out :=
    PurchaseContext.purchasePackage (Scenario.failing Scenario.cancelled)
      Scenario.pkgAnnual before in
  sdk_purchasePackage (Scenario.failing Scenario.cancelled) Scenario.pkgAnnual
    = Throw Scenario.cancelled ∧
  userCancelled Scenario.cancelled = Some true ∧
  error (cells before) = Some "Card declined" ∧
  out.1 = Normal false ∧
  error (cells out.2) = None ∧
  error (cells out.2) ≠ error (cells before).
Proof. repeat split; try reflexivity. discriminate. Qed.

(** ** Start-up: a rejected [configure] *)

(** C2, where the code departs from it.  When a key is set and the vendor
    rejects [configure], start-up from the initial cells still resolves with
    [initialized] true and [lastError] absent: the facade has caught the
    rejection and logged it, so the provider's handler, the only place that
    sets the generic message ["Failed to initialize purchases"], does not
    run. *)
Theorem init_hides_configure_failure env sdk e w :
  PurchasesService.apiKey env ≠ "" →
  sdk_configure sdk (PurchasesService.apiKey env) = Throw e →
  cells w = initialState →
  let out := PurchaseContext.init env sdk w in
  out.1 = Normal () ∧
  isInitialized (cells out.2) = true ∧
  isLoading (cells out.2) = false ∧
  error (cells out.2) = None ∧
  error (cells out.2) ≠ Some "Failed to initialize purchases" ∧
  {| method := console_error; text := "[Purchases] Failed to initialize:";
     detail := Some e |} ∈ console out.2 ∧
  (∀ entry, entry ∈ console out.2 →
     text entry = "[PurchaseContext] Initialization failed:" → entry ∈ console w).
Proof.
  intros Hkey He Hw out. subst out.
  unfold PurchaseContext.init at 1. rewrite init_with_result, init_cells, Hw. cbn.
  do 5 (split; [done|]).
  assert (Hconsole : ∃ fetches,
            console (PurchaseContext.init env sdk w).2 =
              (console w ++
               {| method := console_error; text := "[Purchases] Failed to initialize:";
                  detail := Some e |} :: fetches)%list ∧
            ∀ entry, entry ∈ fetches →
              text entry ≠ "[PurchaseContext] Initialization failed:").
  { js_run. unfold truthy_string.
    destruct (String.eqb_spec (PurchasesService.apiKey env) ""); [done|].
    destruct (__DEV__ env); cbn; rewrite He; cbn;
      destruct (sdk_getOfferings sdk), (sdk_getCustomerInfo sdk); cbn;
      rewrite <- ?app_assoc; cbn; eexists; (split; [reflexivity|]);
      intros entry Hin;
      repeat (apply elem_of_cons in Hin as [->|Hin]; [discriminate|]);
      by apply elem_of_nil in Hin. }
  destruct Hconsole as (fetches & -> & Hfetches). split.
  - apply elem_of_app. right. apply list_elem_of_here.
  - intros entry Hin Htext. apply elem_of_app in Hin as [Hin|Hin]; [exact Hin|].
    apply elem_of_cons in Hin as [->|Hin]; [discriminate|].
    by destruct (Hfetches entry Hin).
Qed.

Lemma init_hides_configure_failure_witness :
  let out := PurchaseContext.init Scenario.ios Scenario.unconfigurable initialWorld in
  out.1 = Normal () ∧
  isInitialized (cells out.2) = true ∧
  isLoading (cells out.2) = false ∧
  error (cells out.2) = None ∧
  error (cells out.2) ≠ Some "Failed to initialize purchases" ∧
  {| method := console_error; text := "[Purchases] Failed to initialize:";
     detail := Some Scenario.offline |} ∈ console out.2 ∧
  (∀ entry, entry ∈ console out.2 →
     text entry = "[PurchaseContext] Initialization failed:" →
     entry ∈ console initialWorld).
Proof.
  apply (init_hides_configure_failure Scenario.ios Scenario.unconfigurable
           Scenario.offline initialWorld).
  - discriminate.
  - reflexivity.
  - reflexivity.
Defined.

(** ** The premium flag *)

(** C3, where the code departs from it.  In every render of the mounted
    provider the published [isPremium] equals the published
    [checkEntitlement] applied to the configured identifier, both read from
    the snapshot currently in the cells, and it is false while no snapshot
    is held.  But the read is [active[id]]: it is defined for the keys of
    the active set and also for the names every object inherits, so the flag
    is true iff the configured identifier is one or the other.  A provider
    configured with an inherited name has the flag on for every held
    snapshot, one without entitlements included. *)
Theorem isPremium_tracks_current_snapshot props st r :
  renders props st r →
  ctx_customerInfo (value r) = customerInfo st ∧
  ctx_isPremium (value r) =
    ctx_checkEntitlement (value r) (premiumEntitlementId_or_default props) ∧
  (ctx_isPremium (value r) = true ↔
     ∃ info, customerInfo st = Some info ∧
       (premiumEntitlementId_or_default props ∈ dom (active (entitlements info)) ∨
        premiumEntitlementId_or_default props ∈ Object_prototype_names)) ∧
  (customerInfo st = None → ctx_isPremium (value r) = false).
Proof.
  intros Hr. destruct (renders_value _ _ _ Hr) as (Hci & Hp & _ & _ & Hf).
  rewrite Hf, Hp, isPremium_checkEntitlement.
  split; [exact Hci|]. split; [reflexivity|]. split.
  - apply checkEntitlement_spec.
  - by intros ->.
Qed.

Lemma isPremium_tracks_current_snapshot_witness :
  let st :=
    cells (PurchaseContext.restorePurchases Scenario.nothing_to_restore
             initialWorld).2 in
  let r :=
    render Scenario.constructorProps st
      (Some (hook_checkEntitlement
               (render Scenario.constructorProps initialState None))) in
  customerInfo st = Some Scenario.emptySnapshot ∧
  dom (active (entitlements Scenario.emptySnapshot)) = ∅ ∧
  ctx_isPremium (value r) = true.
Proof.
  split; [reflexivity|]. split; [apply dom_empty_L|].
  apply (proj1 (proj2 (proj2
           (isPremium_tracks_current_snapshot Scenario.constructorProps _ _
              (renders_after Scenario.constructorProps
                 (PurchaseContext.restorePurchases Scenario.nothing_to_restore)
                 initialWorld _ (renders_mount Scenario.constructorProps)))))).
  exists Scenario.emptySnapshot. split; [reflexivity|].
  right. apply list_elem_of_here.
Defined.

(** ** Release of the loading flag *)

(** C4.  [purchasePackage] and [restorePurchases] return a boolean on every
    path (vendor success, vendor error, user cancellation) and the loading
    flag is false when they do. *)
Theorem loading_released_on_every_path sdk pkg w :
  (∃ b, (PurchaseContext.purchasePackage sdk pkg w).1 = Normal b) ∧
  isLoading (cells (PurchaseContext.purchasePackage sdk pkg w).2) = false ∧
  (∃ b, (PurchaseContext.restorePurchases sdk w).1 = Normal b) ∧
  isLoading (cells (PurchaseContext.restorePurchases sdk w).2) = false.
Proof.
  rewrite purchasePackage_result, purchasePackage_cells,
    restorePurchases_result, restorePurchases_cells.
  destruct (sdk_purchasePackage sdk pkg), (sdk_restorePurchases sdk);
    cbn; eauto 10.
Qed.

(** ** Purchase: success and failure *)

(** C5.  When the vendor purchase call fulfils, [purchasePackage] returns
    true and the held snapshot is the returned one, so the premium flag is
    on as soon as that snapshot lists the configured identifier.  When the
    call rejects and the user did not cancel, it returns false and
    [lastError] is the vendor's message, or ["Purchase failed"] when the
    vendor gave none. *)
Theorem purchasePackage_outcomes props sdk pkg w :
  let out := PurchaseContext.purchasePackage sdk pkg w in
  (∀ res, sdk_purchasePackage sdk pkg = Normal res →
     out.1 = Normal true ∧
     customerInfo (cells out.2) = Some (purchase_customerInfo res) ∧
     (premiumEntitlementId_or_default props
        ∈ dom (active (entitlements (purchase_customerInfo res))) →
      isPremium props (cells out.2) = true)) ∧
  (∀ e, sdk_purchasePackage sdk pkg = Throw e →
     truthy_flag (userCancelled e) = false →
     out.1 = Normal false ∧
     error (cells out.2) = Some (or_else (message e) "Purchase failed") ∧
     (∀ m, message e = Some m → m ≠ "" → error (cells out.2) = Some m) ∧
     (message e = None → error (cells out.2) = Some "Purchase failed")).
Proof.
  intros out. subst out. rewrite purchasePackage_result, purchasePackage_cells.
  split.
  - intros res ->. cbn. repeat split.
    intros Hin. rewrite isPremium_checkEntitlement. apply checkEntitlement_spec. eauto.
  - intros e -> Hc. rewrite Hc. cbn. repeat split.
    + intros m -> Hm. cbn. unfold truthy_string.
      destruct (String.eqb_spec m ""); [done|reflexivity].
    + by intros ->.
Qed.

Lemma purchasePackage_outcomes_witness :
  (let out := PurchaseContext.purchasePackage Scenario.online Scenario.pkgAnnual
                initialWorld in
   out.1 = Normal true ∧
   customerInfo (cells out.2) = Some Scenario.premiumSnapshot ∧
   isPremium Scenario.defaultProps (cells out.2) = true) ∧
  (let out := PurchaseContext.purchasePackage (Scenario.failing Scenario.declined)
                Scenario.pkgAnnual initialWorld in
   out.1 = Normal false ∧
   error (cells out.2) = Some "Card declined").
Proof.
  split.
  - destruct (proj1 (purchasePackage_outcomes Scenario.defaultProps Scenario.online
                       Scenario.pkgAnnual initialWorld) Scenario.bought eq_refl)
      as (Hr & Hc & Hp).
    split; [exact Hr|]. split; [exact Hc|]. apply Hp.
    apply elem_of_dom. exists Scenario.premiumInfo. reflexivity.
  - destruct (proj2 (purchasePackage_outcomes Scenario.defaultProps
                       (Scenario.failing Scenario.declined)
                       Scenario.pkgAnnual initialWorld) Scenario.declined eq_refl eq_refl)
      as (Hr & He & _).
    split; [exact Hr|exact He].
Defined.

(** ** Restore *)

(** C6, where the code departs from it.  [restorePurchases] returns true
    exactly when the vendor restore call fulfils, also when the restored
    snapshot has no active entitlement; when the call rejects, with or
    without [userCancelled], it returns false and [lastError] is the
    vendor's message or ["Failed to restore purchases"].  After a restore
    that returned no active entitlement the premium flag is off for every
    configured identifier except the names every object inherits, for which
    the read [active[id]] is defined and the flag is on. *)
Theorem restorePurchases_outcomes props sdk w :
  let out := PurchaseContext.restorePurchases sdk w in
  (out.1 = Normal true ↔ ∃ info, sdk_restorePurchases sdk = Normal info) ∧
  (∀ info, sdk_restorePurchases sdk = Normal info →
     active (entitlements info) = ∅ →
     out.1 = Normal true ∧
     (premiumEntitlementId_or_default props ∉ Object_prototype_names →
      isPremium props (cells out.2) = false) ∧
     (premiumEntitlementId_or_default props ∈ Object_prototype_names →
      isPremium props (cells out.2) = true)) ∧
  (∀ e, sdk_restorePurchases sdk = Throw e →
     out.1 = Normal false ∧
     error (cells out.2) = Some (or_else (message e) "Failed to restore purchases") ∧
     is_Some (error (cells out.2))).
Proof.
  intros out. subst out. rewrite restorePurchases_result, restorePurchases_cells.
  split; [|split].
  - split.
    + destruct (sdk_restorePurchases sdk); [eauto|discriminate].
    + by intros [info ->].
  - intros info -> Hempty. split; [done|].
    rewrite isPremium_checkEntitlement. cbn. split.
    + intros Hout. apply not_true_is_false. rewrite checkEntitlement_spec.
      intros (i & [= <-] & [Hin|Hin]); [|done].
      rewrite Hempty, dom_empty_L in Hin. by apply not_elem_of_empty in Hin.
    + intros Hin. apply checkEntitlement_spec. eauto.
  - intros e ->. cbn. eauto.
Qed.

Lemma restorePurchases_outcomes_witness :
  let out := PurchaseContext.restorePurchases Scenario.nothing_to_restore initialWorld in
  out.1 = Normal true ∧
  customerInfo (cells out.2) = Some Scenario.emptySnapshot ∧
  isPremium Scenario.defaultProps (cells out.2) = false ∧
  isPremium Scenario.constructorProps (cells out.2) = true ∧
  (let failed := PurchaseContext.restorePurchases (Scenario.failing Scenario.cancelled)
                   initialWorld in
   failed.1 = Normal false ∧
   error (cells failed.2) = Some "Purchase was cancelled.").
Proof.
  destruct (proj1 (proj2 (restorePurchases_outcomes Scenario.defaultProps
                            Scenario.nothing_to_restore initialWorld))
              Scenario.emptySnapshot eq_refl eq_refl) as (Hr & Hoff & _).
  destruct (proj1 (proj2 (restorePurchases_outcomes Scenario.constructorProps
                            Scenario.nothing_to_restore initialWorld))
              Scenario.emptySnapshot eq_refl eq_refl) as (_ & _ & Hon).
  destruct (proj2 (proj2 (restorePurchases_outcomes Scenario.defaultProps
                            (Scenario.failing Scenario.cancelled) initialWorld))
              Scenario.cancelled eq_refl) as (Hf & He & _).
  split; [exact Hr|]. split; [reflexivity|]. split; [|split].
  - apply Hoff. cbn. intros Hin.
    repeat (apply elem_of_cons in Hin as [Hin|Hin]; [discriminate|]).
    by apply elem_of_nil in Hin.
  - apply Hon. apply list_elem_of_here.
  - split; [exact Hf|exact He].
Defined.

(** ** Start-up: the two fetches *)

(** C7.  After start-up [initialized] is true and [loading] false, and each
    of [offerings] and [customerInfo] holds what its own fetch returned, or
    is absent when its own fetch rejected, whatever the other fetch did.  In
    particular, from the initial cells, a served catalogue and a rejected
    customer-info fetch end in [initialized=true], [offerings] the
    catalogue, [customerInfo] absent, [loading=false] and the premium flag
    off. *)
Theorem init_fetches_fail_independently props env sdk w :
  let out := PurchaseContext.init env sdk w in
  (out.1 = Normal () ∧
   isInitialized (cells out.2) = true ∧
   isLoading (cells out.2) = false ∧
   offerings (cells out.2) =
     match sdk_getOfferings sdk with Normal o => Some o | Throw _ => None end ∧
   customerInfo (cells out.2) =
     match sdk_getCustomerInfo sdk with Normal c => Some c | Throw _ => None end) ∧
  (∀ catalog e,
     sdk_configure sdk (PurchasesService.apiKey env) = Normal () →
     sdk_getOfferings sdk = Normal catalog →
     sdk_getCustomerInfo sdk = Throw e →
     cells w = initialState →
     cells out.2 =
       {| isInitialized := true; isLoading := false; offerings := Some catalog;
          customerInfo := None; error := None |} ∧
     isPremium props (cells out.2) = false).
Proof.
  intros out. subst out. rewrite init_cells. unfold PurchaseContext.init.
  rewrite init_with_result. split; [by repeat split|].
  intros catalog e _ -> -> ->. by split.
Qed.

Lemma init_fetches_fail_independently_witness :
  let out := PurchaseContext.init Scenario.ios Scenario.catalog_only initialWorld in
  cells out.2 =
    {| isInitialized := true; isLoading := false;
       offerings := Some Scenario.catalog; customerInfo := None; error := None |} ∧
  isPremium Scenario.defaultProps (cells out.2) = false.
Proof.
  apply (proj2 (init_fetches_fail_independently Scenario.defaultProps Scenario.ios
                  Scenario.catalog_only initialWorld)
           Scenario.catalog Scenario.offline); reflexivity.
Defined.

(** ** Refresh, login, logout *)

Lemma quiet_operations_keep_error sdk userId w :
  error (cells (refreshCustomerInfo sdk w).2) = error (cells w) ∧
  error (cells (login sdk userId w).2) = error (cells w) ∧
  error (cells (logout sdk w).2) = error (cells w).
Proof.
  js_run.
  destruct (sdk_getCustomerInfo sdk), (sdk_logIn sdk userId), (sdk_logOut sdk);
    by repeat split.
Qed.

(** C8.  When the vendor call behind [refreshCustomerInfo], [login] or
    [logout] rejects, the operation still resolves, the cells, [lastError]
    and the held snapshot among them, are as before, and the only trace is
    two [console.error] entries, one from the facade and one from the
    provider.  [lastError] is as before when the vendor call fulfils,
    too. *)
Theorem quiet_operations_swallow_failures sdk userId w :
  (∀ e, sdk_getCustomerInfo sdk = Throw e →
     let out := refreshCustomerInfo sdk w in
     out.1 = Normal () ∧ cells out.2 = cells w ∧
     console out.2 = (console w ++
       [{| method := console_error;
           text := "[Purchases] Failed to get customer info:"; detail := Some e |};
        {| method := console_error;
           text := "[PurchaseContext] Failed to refresh customer info:";
           detail := Some e |}])%list) ∧
  (∀ e, sdk_logIn sdk userId = Throw e →
     let out := login sdk userId w in
     out.1 = Normal () ∧ cells out.2 = cells w ∧
     console out.2 = (console w ++
       [{| method := console_error;
           text := "[Purchases] Failed to identify user:"; detail := Some e |};
        {| method := console_error;
           text := "[PurchaseContext] Login failed:"; detail := Some e |}])%list) ∧
  (∀ e, sdk_logOut sdk = Throw e →
     let out := logout sdk w in
     out.1 = Normal () ∧ cells out.2 = cells w ∧
     console out.2 = (console w ++
       [{| method := console_error;
           text := "[Purchases] Failed to log out:"; detail := Some e |};
        {| method := console_error;
           text := "[PurchaseContext] Logout failed:"; detail := Some e |}])%list) ∧
  (error (cells (refreshCustomerInfo sdk w).2) = error (cells w) ∧
   error (cells (login sdk userId w).2) = error (cells w) ∧
   error (cells (logout sdk w).2) = error (cells w)).
Proof.
  split; [|split; [|split]]; [| | |apply quiet_operations_keep_error];
    intros e He; js_run; rewrite He; cbn;
    rewrite <- app_assoc; by repeat split.
Qed.

Lemma quiet_operations_swallow_failures_witness :
  let w := Scenario.after_declined_purchase in
  let sdk := Scenario.failing Scenario.offline in
  ((refreshCustomerInfo sdk w).1 = Normal () ∧
   cells (refreshCustomerInfo sdk w).2 = cells w) ∧
  ((login sdk "user-1" w).1 = Normal () ∧ cells (login sdk "user-1" w).2 = cells w) ∧
  ((logout sdk w).1 = Normal () ∧ cells (logout sdk w).2 = cells w).
Proof.
  pose proof (quiet_operations_swallow_failures (Scenario.failing Scenario.offline)
                "user-1" Scenario.after_declined_purchase) as (Hr & Hi & Ho & _).
  destruct (Hr Scenario.offline eq_refl) as (Hr1 & Hr2 & _).
  destruct (Hi Scenario.offline eq_refl) as (Hi1 & Hi2 & _).
  destruct (Ho Scenario.offline eq_refl) as (Ho1 & Ho2 & _).
  repeat split; assumption.
Defined.

(** ** The entitlement check *)

(** C9, where the code departs from it.  [checkEntitlement] is a read: in
    every render of the mounted provider it answers from the snapshot
    currently held, false while none is held, and two calls in a row give
    the same answer and leave the world as it was.  What it reads is
    [active[E]], which is defined for the keys of the active set and for
    the names every object inherits: [checkEntitlement (Some S) E] is true
    iff [E] is in the active set of [S] or is such a name.  For an inherited
    name it answers true on every held snapshot. *)
Theorem checkEntitlement_pure_read props st r E :
  renders props st r →
  (∀ S, checkEntitlement (Some S) E = true ↔
        E ∈ dom (active (entitlements S)) ∨ E ∈ Object_prototype_names) ∧
  checkEntitlement None E = false ∧
  (∀ S, customerInfo st = Some S →
     (ctx_checkEntitlement (value r) E = true ↔
      E ∈ dom (active (entitlements S)) ∨ E ∈ Object_prototype_names)) ∧
  (customerInfo st = None → ctx_checkEntitlement (value r) E = false) ∧
  (∀ w,
     (let! first := invoke_checkEntitlement (value r) E in
      let! second := invoke_checkEntitlement (value r) E in
      ret (first, second)) w
     = (Normal (ctx_checkEntitlement (value r) E, ctx_checkEntitlement (value r) E), w)).
Proof.
  intros Hr. destruct (renders_value _ _ _ Hr) as (_ & _ & _ & _ & Hf).
  assert (Hspec : ∀ S, checkEntitlement (Some S) E = true
                       ↔ E ∈ dom (active (entitlements S))
                         ∨ E ∈ Object_prototype_names).
  { intros S. rewrite checkEntitlement_spec. split.
    - by intros (info & [= <-] & Hin).
    - eauto. }
  split; [exact Hspec|]. split; [reflexivity|]. split; [|split].
  - intros S HS. rewrite Hf, HS. apply Hspec.
  - intros HS. by rewrite Hf, HS.
  - reflexivity.
Qed.

Lemma checkEntitlement_pure_read_witness :
  let st :=
    cells (PurchaseContext.restorePurchases Scenario.nothing_to_restore
             initialWorld).2 in
  let r :=
    render Scenario.defaultProps st
      (Some (hook_checkEntitlement (render Scenario.defaultProps initialState None))) in
  customerInfo st = Some Scenario.emptySnapshot ∧
  dom (active (entitlements Scenario.emptySnapshot)) = ∅ ∧
  ctx_checkEntitlement (value r) "constructor" = true ∧
  ctx_checkEntitlement (value r) "toString" = true.
Proof.
  assert (Hr : renders Scenario.defaultProps
                 (cells (PurchaseContext.restorePurchases Scenario.nothing_to_restore
                           initialWorld).2)
                 (render Scenario.defaultProps
                    (cells (PurchaseContext.restorePurchases Scenario.nothing_to_restore
                              initialWorld).2)
                    (Some (hook_checkEntitlement
                             (render Scenario.defaultProps initialState None))))).
  { apply (renders_after Scenario.defaultProps
             (PurchaseContext.restorePurchases Scenario.nothing_to_restore) initialWorld).
    apply renders_mount. }
  split; [reflexivity|]. split; [apply dom_empty_L|]. split.
  - destruct (checkEntitlement_pure_read _ _ _ "constructor" Hr) as (_ & _ & Hin & _).
    apply (Hin Scenario.emptySnapshot eq_refl). right. apply list_elem_of_here.
  - destruct (checkEntitlement_pure_read _ _ _ "toString" Hr) as (_ & _ & Hin & _).
    apply (Hin Scenario.emptySnapshot eq_refl). right. repeat constructor.
Defined.

(** ** The facade's initialiser *)

(** C10.  [initializePurchases] resolves for every environment and every
    vendor, and leaves the cells alone.  Without an API key for the platform
    it warns and returns before any [configure] call; a rejected [configure]
    is caught and logged with [console.error].  Hence start-up always ends
    with [initialized] true, also when the SDK was never configured. *)
Theorem initializePurchases_never_rejects env sdk w :
  let out := PurchasesService.initializePurchases env sdk w in
  let level := if __DEV__ env then DEBUG else INFO in
  out.1 = Normal () ∧
  cells out.2 = cells w ∧
  (PurchasesService.apiKey env = "" →
     console out.2 = (console w ++
       [{| method := console_warn; text := PurchasesService.missing_key_warning;
           detail := None |}])%list ∧
     calls out.2 = (calls w ++ [CallSetLogLevel level])%list) ∧
  (∀ e, PurchasesService.apiKey env ≠ "" →
     sdk_configure sdk (PurchasesService.apiKey env) = Throw e →
     console out.2 = (console w ++
       [{| method := console_error; text := "[Purchases] Failed to initialize:";
           detail := Some e |}])%list ∧
     calls out.2 = (calls w ++
       [CallSetLogLevel level; CallConfigure (PurchasesService.apiKey env)])%list) ∧
  (PurchaseContext.init env sdk w).1 = Normal () ∧
  isInitialized (cells (PurchaseContext.init env sdk w).2) = true.
Proof.
  intros out level. subst out level.
  rewrite initializePurchases_result, service_initializePurchases_cells, init_cells.
  unfold PurchaseContext.init. rewrite init_with_result.
  split; [done|]. split; [done|]. split; [|split; [|done]].
  - intros Hkey. js_run. rewrite Hkey. destruct (__DEV__ env); by cbn.
  - intros e Hkey He. js_run. unfold truthy_string.
    destruct (String.eqb_spec (PurchasesService.apiKey env) ""); [done|].
    destruct (__DEV__ env); cbn; rewrite He; cbn; by rewrite <- app_assoc.
Qed.

Lemma initializePurchases_never_rejects_witness :
  (let out := PurchasesService.initializePurchases Scenario.android_without_key
                Scenario.online initialWorld in
   console out.2 =
     [{| method := console_warn; text := PurchasesService.missing_key_warning;
         detail := None |}] ∧
   calls out.2 = [CallSetLogLevel INFO]) ∧
  (let out := PurchasesService.initializePurchases Scenario.ios
                (Scenario.failing Scenario.offline) initialWorld in
   console out.2 =
     [{| method := console_error; text := "[Purchases] Failed to initialize:";
         detail := Some Scenario.offline |}] ∧
   calls out.2 = [CallSetLogLevel DEBUG; CallConfigure "appl_key"]).
Proof.
  split.
  - apply (proj1 (proj2 (proj2 (initializePurchases_never_rejects
                                  Scenario.android_without_key Scenario.online
                                  initialWorld)))).
    reflexivity.
  - apply (proj1 (proj2 (proj2 (proj2 (initializePurchases_never_rejects
                                         Scenario.ios (Scenario.failing Scenario.offline)
                                         initialWorld)))) Scenario.offline).
    + discriminate.
    + reflexivity.
Defined.

(** * Further properties *)

(** ** Running consumers and sessions *)

Ltac ui_unfold :=
  unfold RestorePurchasesButton.handleRestore, RestorePurchasesButton.setIsRestoring,
    PaywallScreen.handlePurchase, PaywallScreen.handleRestore,
    PaywallScreen.setIsPurchasing, PaywallScreen.setSelectedPackage,
    call_optional, emit, set_local, lift, ui_try_finally, ui_try_catch, ui_bind, ui_ret.

Ltac session_unfold := unfold Session.perform, Session.answer_of, Session.call_of.

(** One action, by the vendor's answer: it resolves, makes its one call,
    and writes the cells as follows. *)
Lemma perform_result op sdk w : (Session.perform op sdk w).1 = Normal ().
Proof.
  destruct op; session_unfold.
  - pose proof (purchasePackage_result sdk pkg w) as H. unfold bind, ret.
    destruct (PurchaseContext.purchasePackage sdk pkg w) as [[b|e] w']; cbn in *;
      [reflexivity|]. destruct (sdk_purchasePackage sdk pkg); discriminate.
  - pose proof (restorePurchases_result sdk w) as H. unfold bind, ret.
    destruct (PurchaseContext.restorePurchases sdk w) as [[b|e] w']; cbn in *;
      [reflexivity|]. destruct (sdk_restorePurchases sdk); discriminate.
  - js_run. destruct (sdk_getCustomerInfo sdk); reflexivity.
  - js_run. destruct (sdk_logIn sdk userId); reflexivity.
  - js_run. destruct (sdk_logOut sdk); reflexivity.
Qed.

Lemma perform_calls op sdk w :
  calls (Session.perform op sdk w).2 = (calls w ++ [Session.call_of op])%list.
Proof.
  destruct op; session_unfold; js_run.
  - destruct (sdk_purchasePackage sdk pkg) as [res|[[[]|] msg]]; reflexivity.
  - destruct (sdk_restorePurchases sdk); reflexivity.
  - destruct (sdk_getCustomerInfo sdk); reflexivity.
  - destruct (sdk_logIn sdk userId); reflexivity.
  - destruct (sdk_logOut sdk); reflexivity.
Qed.

Lemma perform_customerInfo op sdk w :
  customerInfo (cells (Session.perform op sdk w).2) =
  match Session.answer_of op sdk with
  | Normal snapshot => Some snapshot
  | Throw _ => customerInfo (cells w)
  end.
Proof.
  destruct op; session_unfold; js_run.
  - destruct (sdk_purchasePackage sdk pkg) as [res|[[[]|] msg]]; reflexivity.
  - destruct (sdk_restorePurchases sdk); reflexivity.
  - destruct (sdk_getCustomerInfo sdk); reflexivity.
  - destruct (sdk_logIn sdk userId); reflexivity.
  - destruct (sdk_logOut sdk); reflexivity.
Qed.

Lemma perform_frame op sdk w :
  isInitialized (cells (Session.perform op sdk w).2) = isInitialized (cells w) ∧
  offerings (cells (Session.perform op sdk w).2) = offerings (cells w).
Proof.
  destruct op; session_unfold; js_run.
  - destruct (sdk_purchasePackage sdk pkg) as [res|[[[]|] msg]]; by split.
  - destruct (sdk_restorePurchases sdk); by split.
  - destruct (sdk_getCustomerInfo sdk); by split.
  - destruct (sdk_logIn sdk userId); by split.
  - destruct (sdk_logOut sdk); by split.
Qed.

Lemma perform_loading op sdk w :
  isLoading (cells (Session.perform op sdk w).2) =
  match op with
  | Session.Purchase _ | Session.Restore => false
  | _ => isLoading (cells w)
  end.
Proof.
  destruct op; session_unfold; js_run.
  - destruct (sdk_purchasePackage sdk pkg) as [res|[[[]|] msg]]; reflexivity.
  - destruct (sdk_restorePurchases sdk); reflexivity.
  - destruct (sdk_getCustomerInfo sdk); reflexivity.
  - destruct (sdk_logIn sdk userId); reflexivity.
  - destruct (sdk_logOut sdk); reflexivity.
Qed.

(** A message is presentable when it is absent or a non-empty string. *)
Lemma or_else_nonempty v fallback : fallback ≠ "" → or_else v fallback ≠ "".
Proof.
  intros Hf. unfold or_else, truthy_string. destruct v as [s|]; [|done].
  by destruct (String.eqb_spec s "").
Qed.

Lemma perform_error_presentable op sdk w :
  (∀ s, error (cells w) = Some s → s ≠ "") →
  ∀ s, error (cells (Session.perform op sdk w).2) = Some s → s ≠ "".
Proof.
  intros Hw s. destruct op; session_unfold; js_run.
  - destruct (sdk_purchasePackage sdk pkg) as [res|[[[]|] msg]]; cbn; try done;
      intros [= <-]; by apply or_else_nonempty.
  - destruct (sdk_restorePurchases sdk) as [res|e]; cbn; try done.
    intros [= <-]. by apply or_else_nonempty.
  - destruct (sdk_getCustomerInfo sdk); cbn; apply Hw.
  - destruct (sdk_logIn sdk userId); cbn; apply Hw.
  - destruct (sdk_logOut sdk); cbn; apply Hw.
Qed.

(** Runs of actions. *)
Lemma perform_all_cons op sdk rest w :
  Session.perform_all ((op, sdk) :: rest) w =
  Session.perform_all rest (Session.perform op sdk w).2.
Proof.
  cbn. unfold bind at 1. pose proof (perform_result op sdk w) as H.
  destruct (Session.perform op sdk w) as [[[]|e] w']; cbn in *; [reflexivity|discriminate].
Qed.

Lemma perform_all_result steps w : (Session.perform_all steps w).1 = Normal ().
Proof.
  revert w. induction steps as [|[op sdk] rest IH]; intros w; [reflexivity|].
  rewrite perform_all_cons. apply IH.
Qed.

Lemma perform_all_frame steps w :
  isInitialized (cells (Session.perform_all steps w).2) = isInitialized (cells w) ∧
  offerings (cells (Session.perform_all steps w).2) = offerings (cells w).
Proof.
  revert w. induction steps as [|[op sdk] rest IH]; intros w; [by split|].
  rewrite perform_all_cons.
  destruct (IH (Session.perform op sdk w).2) as [-> ->]. apply perform_frame.
Qed.

Lemma perform_all_idle steps w :
  isLoading (cells w) = false →
  isLoading (cells (Session.perform_all steps w).2) = false.
Proof.
  revert w. induction steps as [|[op sdk] rest IH]; intros w Hw; [exact Hw|].
  rewrite perform_all_cons. apply IH. rewrite perform_loading. by destruct op.
Qed.

Lemma perform_all_error_presentable steps w :
  (∀ s, error (cells w) = Some s → s ≠ "") →
  ∀ s, error (cells (Session.perform_all steps w).2) = Some s → s ≠ "".
Proof.
  revert w. induction steps as [|[op sdk] rest IH]; intros w Hw; [exact Hw|].
  rewrite perform_all_cons. apply IH. by apply perform_error_presentable.
Qed.

Lemma perform_all_calls steps w :
  calls (Session.perform_all steps w).2 =
  (calls w ++ (Session.call_of ∘ fst <$> steps))%list.
Proof.
  revert w. induction steps as [|[op sdk] rest IH]; intros w.
  - cbn. by rewrite app_nil_r.
  - rewrite perform_all_cons, IH, perform_calls. cbn. by rewrite <- app_assoc.
Qed.

Lemma session_run env sdk steps w :
  Session.session env sdk steps w =
  Session.perform_all steps (PurchaseContext.init env sdk w).2.
Proof.
  unfold Session.session, bind.
  pose proof (init_with_result (PurchasesService.initializePurchases env sdk) sdk w) as H.
  unfold PurchaseContext.init.
  destruct (init_with _ sdk w) as [[[]|e] w']; cbn in *; [reflexivity|discriminate].
Qed.

(** ** The facade *)

(** X1.  [hasEntitlement] never rejects and leaves the cells alone: it
    makes one [getCustomerInfo] call and answers what the provider's
    [checkEntitlement] answers on the fetched snapshot, that is true exactly
    when the call fulfils and the identifier is a key of the snapshot's
    active set or a name every object inherits; a rejected call gives
    false. *)
Theorem hasEntitlement_agrees_with_checkEntitlement sdk id w :
  let out := PurchasesService.hasEntitlement sdk id w in
  (∃ b, out.1 = Normal b) ∧
  (out.1 = Normal true ↔
     ∃ snapshot, sdk_getCustomerInfo sdk = Normal snapshot ∧
       (id ∈ dom (active (entitlements snapshot)) ∨ id ∈ Object_prototype_names)) ∧
  (∀ snapshot, sdk_getCustomerInfo sdk = Normal snapshot →
     out.1 = Normal (checkEntitlement (Some snapshot) id)) ∧
  (∀ e, sdk_getCustomerInfo sdk = Throw e → out.1 = Normal false) ∧
  cells out.2 = cells w ∧
  calls out.2 = (calls w ++ [CallGetCustomerInfo])%list.
Proof.
  unfold PurchasesService.hasEntitlement. js_run.
  destruct (sdk_getCustomerInfo sdk) as [snapshot|e]; cbn.
  - split; [eauto|]. split; [|split; [|split; [|by split]]].
    + split.
      * intros [= Hd]. exists snapshot. split; [done|]. by apply property_read_defined.
      * intros (s & [= <-] & Hin). f_equal. by apply property_read_defined.
    + by intros s [= <-].
    + discriminate.
  - split; [eauto|]. split; [|split; [|by repeat split]].
    + split; [discriminate|]. by intros (? & ? & ?).
    + discriminate.
Qed.

Lemma hasEntitlement_agrees_with_checkEntitlement_witness :
  (PurchasesService.hasEntitlement Scenario.online "premium" initialWorld).1
    = Normal (checkEntitlement (Some Scenario.premiumSnapshot) "premium") ∧
  (PurchasesService.hasEntitlement Scenario.nothing_to_restore "toString"
     initialWorld).1 = Normal true ∧
  (PurchasesService.hasEntitlement (Scenario.failing Scenario.offline) "premium"
     initialWorld).1 = Normal false.
Proof.
  split; [|split].
  - apply (proj1 (proj2 (proj2 (hasEntitlement_agrees_with_checkEntitlement
                                  Scenario.online "premium" initialWorld)))
             Scenario.premiumSnapshot).
    reflexivity.
  - apply (proj1 (proj2 (hasEntitlement_agrees_with_checkEntitlement
                           Scenario.nothing_to_restore "toString" initialWorld))).
    exists Scenario.emptySnapshot. split; [reflexivity|]. right. repeat constructor.
  - apply (proj1 (proj2 (proj2 (proj2 (hasEntitlement_agrees_with_checkEntitlement
                                         (Scenario.failing Scenario.offline) "premium"
                                         initialWorld))))
             Scenario.offline).
    reflexivity.
Defined.

(** X2.  The six forwarding functions of the facade hand on what the SDK
    answered: the value it fulfilled with, or the very error it rejected
    with, so that [userCancelled] and [message] reach the caller untouched.
    None of them writes a cell. *)
Theorem facade_hands_on_vendor_answer sdk pkg userId w :
  (PurchasesService.getOfferings sdk w).1 =
    match sdk_getOfferings sdk with Normal o => Normal (Some o) | Throw e => Throw e end ∧
  (PurchasesService.purchasePackage sdk pkg w).1 =
    Session.answer_of (Session.Purchase pkg) sdk ∧
  (PurchasesService.restorePurchases sdk w).1 = sdk_restorePurchases sdk ∧
  (PurchasesService.getCustomerInfo sdk w).1 = sdk_getCustomerInfo sdk ∧
  (PurchasesService.identifyUser sdk userId w).1 =
    Session.answer_of (Session.Login userId) sdk ∧
  (PurchasesService.logOutUser sdk w).1 = sdk_logOut sdk ∧
  cells (PurchasesService.getOfferings sdk w).2 = cells w ∧
  cells (PurchasesService.purchasePackage sdk pkg w).2 = cells w ∧
  cells (PurchasesService.restorePurchases sdk w).2 = cells w ∧
  cells (PurchasesService.getCustomerInfo sdk w).2 = cells w ∧
  cells (PurchasesService.identifyUser sdk userId w).2 = cells w ∧
  cells (PurchasesService.logOutUser sdk w).2 = cells w.
Proof.
  session_unfold. js_run.
  destruct (sdk_getOfferings sdk), (sdk_purchasePackage sdk pkg) as [res|[[[]|] msg]],
    (sdk_restorePurchases sdk), (sdk_getCustomerInfo sdk), (sdk_logIn sdk userId),
    (sdk_logOut sdk); cbn; repeat split.
Qed.

(** X3.  A failed purchase leaves exactly one console entry, written by the
    facade: a [console.log] line when the user cancelled, a [console.error]
    with the error otherwise.  A cancellation is therefore never reported
    through [console.error]. *)
Theorem purchasePackage_failure_console sdk pkg e w :
  sdk_purchasePackage sdk pkg = Throw e →
  let out := PurchaseContext.purchasePackage sdk pkg w in
  console out.2 =
    (console w ++
     [if truthy_flag (userCancelled e)
      then {| method := console_log; text := "[Purchases] User cancelled purchase";
              detail := None |}
      else {| method := console_error; text := "[Purchases] Purchase failed:";
              detail := Some e |}])%list ∧
  (truthy_flag (userCancelled e) = true →
   ∀ entry, entry ∈ console out.2 → method entry = console_error → entry ∈ console w).
Proof.
  intros He out. subst out.
  assert (Hc : console (PurchaseContext.purchasePackage sdk pkg w).2 =
    (console w ++
     [if truthy_flag (userCancelled e)
      then {| method := console_log; text := "[Purchases] User cancelled purchase";
              detail := None |}
      else {| method := console_error; text := "[Purchases] Purchase failed:";
              detail := Some e |}])%list).
  { js_run. rewrite He. destruct e as [[[]|] msg]; reflexivity. }
  split; [exact Hc|].
  intros Hcancel entry Hin Hm. rewrite Hc, Hcancel in Hin.
  apply elem_of_app in Hin as [Hin|Hin]; [exact Hin|].
  apply list_elem_of_singleton in Hin. subst entry. discriminate.
Qed.

Lemma purchasePackage_failure_console_witness :
  console (PurchaseContext.purchasePackage (Scenario.failing Scenario.cancelled)
             Scenario.pkgAnnual initialWorld).2 =
  [{| method := console_log; text := "[Purchases] User cancelled purchase";
      detail := None |}].
Proof.
  apply (proj1 (purchasePackage_failure_console (Scenario.failing Scenario.cancelled)
                  Scenario.pkgAnnual Scenario.cancelled initialWorld eq_refl)).
Defined.

(** ** The provider *)

(** X4.  No retries: whatever the vendor answers, an action resolves after
    exactly one SDK call, and a run of actions makes one call per action, in
    order. *)
Theorem one_vendor_call_per_action steps op sdk w :
  (Session.perform op sdk w).1 = Normal () ∧
  calls (Session.perform op sdk w).2 = (calls w ++ [Session.call_of op])%list ∧
  (Session.perform_all steps w).1 = Normal () ∧
  calls (Session.perform_all steps w).2 =
    (calls w ++ (Session.call_of ∘ fst <$> steps))%list.
Proof.
  split; [apply perform_result|]. split; [apply perform_calls|].
  split; [apply perform_all_result|apply perform_all_calls].
Qed.

(** X5.  Start-up asks the SDK for the catalogue and the customer info in
    every case, once each and in that order, also when no API key is set or
    [configure] was rejected; [configure] is called at most once and only
    with a non-empty key. *)
Theorem init_always_fetches env sdk w :
  calls (PurchaseContext.init env sdk w).2 =
  (calls w
   ++ [CallSetLogLevel (if __DEV__ env then DEBUG else INFO)]
   ++ (if String.eqb (PurchasesService.apiKey env) "" then []
       else [CallConfigure (PurchasesService.apiKey env)])
   ++ [CallGetOfferings; CallGetCustomerInfo])%list.
Proof.
  js_run. unfold truthy_string.
  destruct (__DEV__ env), (String.eqb (PurchasesService.apiKey env) ""); cbn;
    try destruct (sdk_configure sdk _) as [[]|]; cbn;
    destruct (sdk_getOfferings sdk), (sdk_getCustomerInfo sdk); cbn;
    rewrite <- ?app_assoc; reflexivity.
Qed.

(** X6.  An action whose vendor call rejects, a cancelled purchase
    included, keeps the held snapshot: it neither grants nor revokes any
    entitlement, and the premium flag is what it was. *)
Theorem failed_action_keeps_snapshot props op sdk e w :
  Session.answer_of op sdk = Throw e →
  let w' := (Session.perform op sdk w).2 in
  customerInfo (cells w') = customerInfo (cells w) ∧
  isPremium props (cells w') = isPremium props (cells w) ∧
  ∀ id, checkEntitlement (customerInfo (cells w')) id
        = checkEntitlement (customerInfo (cells w)) id.
Proof.
  intros He w'. subst w'.
  assert (Hc := perform_customerInfo op sdk w). rewrite He in Hc.
  split; [exact Hc|]. rewrite !isPremium_checkEntitlement, Hc. by split.
Qed.

Lemma failed_action_keeps_snapshot_witness :
  let w := (PurchaseContext.purchasePackage Scenario.online Scenario.pkgAnnual
              initialWorld).2 in
  let w' := (Session.perform Session.Restore (Scenario.failing Scenario.offline) w).2 in
  customerInfo (cells w') = Some Scenario.premiumSnapshot ∧
  isPremium Scenario.defaultProps (cells w') = isPremium Scenario.defaultProps (cells w).
Proof.
  destruct (failed_action_keeps_snapshot Scenario.defaultProps Session.Restore
              (Scenario.failing Scenario.offline) Scenario.offline
              (PurchaseContext.purchasePackage Scenario.online Scenario.pkgAnnual
                 initialWorld).2 eq_refl) as (Hc & Hp & _).
  split; [exact Hc|exact Hp].
Defined.

(** X7.  An action whose vendor call fulfils replaces the held snapshot by
    the returned one, with no merge: afterwards [checkEntitlement] answers
    for every identifier as it does on the returned snapshot alone, true iff
    the identifier is a key of its active set or a name every object
    inherits, whatever was held before. *)
Theorem fulfilled_action_replaces_snapshot op sdk snapshot w :
  Session.answer_of op sdk = Normal snapshot →
  let w' := (Session.perform op sdk w).2 in
  customerInfo (cells w') = Some snapshot ∧
  ∀ id,
    checkEntitlement (customerInfo (cells w')) id = checkEntitlement (Some snapshot) id ∧
    (checkEntitlement (customerInfo (cells w')) id = true
     ↔ id ∈ dom (active (entitlements snapshot)) ∨ id ∈ Object_prototype_names).
Proof.
  intros Ha w'. subst w'.
  assert (Hc := perform_customerInfo op sdk w). rewrite Ha in Hc.
  split; [exact Hc|]. intros id. rewrite Hc. split; [reflexivity|].
  rewrite checkEntitlement_spec. split.
  - by intros (info & [= <-] & Hin).
  - eauto.
Qed.

Lemma fulfilled_action_replaces_snapshot_witness :
  let w := (PurchaseContext.purchasePackage Scenario.online Scenario.pkgAnnual
              initialWorld).2 in
  let w' := (Session.perform Session.Logout Scenario.online w).2 in
  customerInfo (cells w) = Some Scenario.premiumSnapshot ∧
  checkEntitlement (customerInfo (cells w)) "premium" = true ∧
  customerInfo (cells w') = Some Scenario.emptySnapshot ∧
  checkEntitlement (customerInfo (cells w')) "premium" = false.
Proof.
  destruct (fulfilled_action_replaces_snapshot Session.Logout Scenario.online
              Scenario.emptySnapshot
              (PurchaseContext.purchasePackage Scenario.online Scenario.pkgAnnual
                 initialWorld).2 eq_refl) as (Hc & Hid).
  split; [reflexivity|]. split; [|split; [exact Hc|]].
  - apply checkEntitlement_spec. exists Scenario.premiumSnapshot.
    split; [reflexivity|]. left. apply elem_of_dom.
    exists Scenario.premiumInfo. reflexivity.
  - destruct (Hid "premium") as [_ Hiff]. apply not_true_is_false. intros Htrue.
    apply Hiff in Htrue as [Hin|Hin].
    + cbn in Hin. rewrite dom_empty_L in Hin. by apply not_elem_of_empty in Hin.
    + repeat (apply elem_of_cons in Hin as [Hin|Hin]; [discriminate|]).
      by apply elem_of_nil in Hin.
Defined.

(** X8.  The catalogue is fetched at start-up and never again: after mount
    and any run of actions, whatever the vendor answered to each, the run
    has resolved, [initialized] is true, [loading] is false and [offerings]
    is still what the start-up fetch returned, absent if that fetch was
    rejected. *)
Theorem session_keeps_startup_results env sdk steps w :
  let out := Session.session env sdk steps w in
  out.1 = Normal () ∧
  isInitialized (cells out.2) = true ∧
  isLoading (cells out.2) = false ∧
  offerings (cells out.2) =
    match sdk_getOfferings sdk with Normal o => Some o | Throw _ => None end.
Proof.
  cbv zeta. rewrite session_run.
  split; [apply perform_all_result|].
  destruct (perform_all_frame steps (PurchaseContext.init env sdk w).2) as [-> ->].
  rewrite (perform_all_idle steps); rewrite ?init_cells; by cbn.
Qed.

(** X9.  [lastError] after a purchase or a restore is decided by the
    vendor's answer to that attempt alone: started from any two worlds, the
    attempt ends with the same [lastError].  No message of an earlier
    attempt survives a new one. *)
Theorem attempt_error_ignores_history sdk pkg w1 w2 :
  error (cells (PurchaseContext.purchasePackage sdk pkg w1).2)
    = error (cells (PurchaseContext.purchasePackage sdk pkg w2).2) ∧
  error (cells (PurchaseContext.restorePurchases sdk w1).2)
    = error (cells (PurchaseContext.restorePurchases sdk w2).2).
Proof.
  rewrite !purchasePackage_cells, !restorePurchases_cells.
  by destruct (sdk_purchasePackage sdk pkg), (sdk_restorePurchases sdk).
Qed.

(** ** The restore button *)

Lemma restore_button_run props ctx sdk s :
  let out := RestorePurchasesButton.handleRestore props ctx sdk s in
  out.1 = Normal () ∧
  local out.2 = false ∧
  world out.2 = (PurchaseContext.restorePurchases sdk (world s)).2 ∧
  events out.2 =
    (events s ++
     [match sdk_restorePurchases sdk with
      | Normal _ =>
          if ctx_isPremium ctx
          then AlertShown "Purchases Restored"
                 "Your purchases have been successfully restored."
                 (if RestorePurchasesButton.onSuccess props then Some OnSuccess else None)
          else AlertShown "No Purchases Found"
                 "We could not find any previous purchases to restore." None
      | Throw _ =>
          AlertShown "No Purchases Found"
            "We could not find any previous purchases to restore." None
      end])%list.
Proof.
  ui_unfold. js_run.
  destruct (sdk_restorePurchases sdk); cbn; [destruct (ctx_isPremium ctx); cbn|];
    by repeat split.
Qed.

(** X10.  The restore button never reaches its error branch.  When the
    vendor rejects the restore, pressing the button still resolves, shows
    the single alert "No Purchases Found", does not call [onError], and
    releases [isRestoring]; the vendor's message ends up in the provider's
    [lastError] only. *)
Theorem restore_button_failure_is_not_reported props ctx sdk e s :
  sdk_restorePurchases sdk = Throw e →
  let out := RestorePurchasesButton.handleRestore props ctx sdk s in
  out.1 = Normal () ∧
  local out.2 = false ∧
  events out.2 =
    (events s ++
     [AlertShown "No Purchases Found"
        "We could not find any previous purchases to restore." None])%list ∧
  error (cells (world out.2)) = Some (or_else (message e) "Failed to restore purchases").
Proof.
  intros He out. subst out.
  destruct (restore_button_run props ctx sdk s) as (Hr & Hl & Hw & Hev).
  rewrite He in Hev. rewrite Hw, restorePurchases_cells, He. by repeat split.
Qed.

Lemma restore_button_failure_is_not_reported_witness :
  let s := {| world := initialWorld; local := false; events := [] |} in
  let out :=
    RestorePurchasesButton.handleRestore
      {| RestorePurchasesButton.onSuccess := true; RestorePurchasesButton.onError := true;
         RestorePurchasesButton.label := None |}
      (value (render Scenario.defaultProps initialState None))
      (Scenario.failing Scenario.offline) s in
  out.1 = Normal () ∧
  local out.2 = false ∧
  events out.2 =
    [AlertShown "No Purchases Found"
       "We could not find any previous purchases to restore." None] ∧
  error (cells (world out.2)) = Some "Network error".
Proof.
  exact (restore_button_failure_is_not_reported
           {| RestorePurchasesButton.onSuccess := true;
              RestorePurchasesButton.onError := true;
              RestorePurchasesButton.label := None |}
           (value (render Scenario.defaultProps initialState None))
           (Scenario.failing Scenario.offline) Scenario.offline
           {| world := initialWorld; local := false; events := [] |} eq_refl).
Defined.

(** X11.  The alert of the restore button goes by the [isPremium] of the
    render the handler was created in, not by the restored snapshot: after
    a restore the vendor fulfilled, "Purchases Restored" is shown iff the
    user was premium already when the button was pressed.  A user who was
    not gets "No Purchases Found" although the provider now holds the
    restored snapshot. *)
Theorem restore_button_alert_uses_earlier_premium props ctx sdk snapshot s :
  sdk_restorePurchases sdk = Normal snapshot →
  let out := RestorePurchasesButton.handleRestore props ctx sdk s in
  customerInfo (cells (world out.2)) = Some snapshot ∧
  events out.2 =
    (events s ++
     [if ctx_isPremium ctx
      then AlertShown "Purchases Restored"
             "Your purchases have been successfully restored."
             (if RestorePurchasesButton.onSuccess props then Some OnSuccess else None)
      else AlertShown "No Purchases Found"
             "We could not find any previous purchases to restore." None])%list.
Proof.
  intros Hs out. subst out.
  destruct (restore_button_run props ctx sdk s) as (_ & _ & Hw & Hev).
  rewrite Hs in Hev. rewrite Hw, restorePurchases_cells, Hs. by split.
Qed.

Lemma restore_button_alert_uses_earlier_premium_witness :
  let s := {| world := initialWorld; local := false; events := [] |} in
  let out :=
    RestorePurchasesButton.handleRestore
      {| RestorePurchasesButton.onSuccess := true; RestorePurchasesButton.onError := true;
         RestorePurchasesButton.label := None |}
      (value (render Scenario.defaultProps initialState None))
      Scenario.online s in
  customerInfo (cells (world out.2)) = Some Scenario.premiumSnapshot ∧
  events out.2 =
    [AlertShown "No Purchases Found"
       "We could not find any previous purchases to restore." None].
Proof.
  exact (restore_button_alert_uses_earlier_premium
           {| RestorePurchasesButton.onSuccess := true;
              RestorePurchasesButton.onError := true;
              RestorePurchasesButton.label := None |}
           (value (render Scenario.defaultProps initialState None))
           Scenario.online Scenario.premiumSnapshot
           {| world := initialWorld; local := false; events := [] |} eq_refl).
Defined.

(** ** The paywall *)

(** X12.  [handlePurchase] does nothing at all without a selected package.
    With one, it resolves for every vendor answer, leaves [isPurchasing]
    false and the selection as it was, and calls [onPurchaseSuccess], once,
    exactly when the vendor fulfilled the purchase and the host passed the
    callback. *)
Theorem paywall_purchase_flow props selected sdk s :
  let out := PaywallScreen.handlePurchase props selected sdk s in
  out.1 = Normal () ∧
  match selected with
  | None => out.2 = s
  | Some pkg =>
      world out.2 = (PurchaseContext.purchasePackage sdk pkg (world s)).2 ∧
      PaywallScreen.isPurchasing (local out.2) = false ∧
      PaywallScreen.selectedPackage (local out.2)
        = PaywallScreen.selectedPackage (local s) ∧
      events out.2 =
        (events s ++
         match sdk_purchasePackage sdk pkg with
         | Normal _ =>
             if PaywallScreen.onPurchaseSuccess props
             then [Invoked OnPurchaseSuccess None] else []
         | Throw _ => []
         end)%list
  end.
Proof.
  destruct selected as [pkg|]; [|by split].
  ui_unfold. js_run.
  destruct (sdk_purchasePackage sdk pkg) as [res|[[[]|] msg]]; cbn;
    try destruct (PaywallScreen.onPurchaseSuccess props); cbn;
    rewrite ?app_nil_r; by repeat split.
Qed.

(** X13.  The paywall's own restore link is silent: it resolves for every
    vendor answer, leaves [isPurchasing] false, and shows no alert and
    calls no callback, whether the restore found purchases, found none, or
    failed. *)
Theorem paywall_restore_is_silent sdk s :
  let out := PaywallScreen.handleRestore sdk s in
  out.1 = Normal () ∧
  world out.2 = (PurchaseContext.restorePurchases sdk (world s)).2 ∧
  PaywallScreen.isPurchasing (local out.2) = false ∧
  PaywallScreen.selectedPackage (local out.2) = PaywallScreen.selectedPackage (local s) ∧
  events out.2 = events s.
Proof.
  ui_unfold. js_run. destruct (sdk_restorePurchases sdk); by repeat split.
Qed.

Lemma prefix_append s t : String.prefix s (s ++ t) = true.
Proof.
  induction s as [|a s IH].
  - change ("" ++ t) with t. by destruct t.
  - change (String a s ++ t) with (String a (s ++ t)). cbn.
    destruct (Ascii.ascii_dec a a); [exact IH|done].
Qed.

Lemma prefix_self s : String.prefix s s = true.
Proof.
  induction s as [|a s IH]; cbn; [reflexivity|].
  destruct (Ascii.ascii_dec a a); [exact IH|done].
Qed.

(** X14.  The price label never alters the vendor's price string: the label
    starts with it, and is the price string itself unless the package type
    is exactly one of [ANNUAL], [MONTHLY], [WEEKLY], [LIFETIME]. *)
Theorem formatPrice_keeps_vendor_price pkg :
  String.prefix (priceString (product pkg)) (PaywallScreen.formatPrice pkg) = true ∧
  (packageType pkg ∉ ["ANNUAL"; "MONTHLY"; "WEEKLY"; "LIFETIME"] →
   PaywallScreen.formatPrice pkg = priceString (product pkg)).
Proof.
  unfold PaywallScreen.formatPrice. cbn. split.
  - repeat (destruct (String.eqb _ _); [apply prefix_append|]). apply prefix_self.
  - intros Hnot.
    repeat match goal with
           | |- context [String.eqb ?a ?b] =>
               destruct (String.eqb_spec a b) as [Heq|_];
               [exfalso; apply Hnot; rewrite Heq; set_solver|]
           end.
    reflexivity.
Qed.

Lemma formatPrice_keeps_vendor_price_witness :
  PaywallScreen.formatPrice
    {| packageIdentifier := "$rc_custom"; packageType := "annual";
       product := {| title := "Premium"; priceString := "$9.99" |} |} = "$9.99".
Proof.
  apply (proj2 (formatPrice_keeps_vendor_price
                  {| packageIdentifier := "$rc_custom"; packageType := "annual";
                     product := {| title := "Premium"; priceString := "$9.99" |} |})).
  cbn. intros Hin. repeat (apply elem_of_cons in Hin as [Hin|Hin]; [discriminate|]).
  by apply elem_of_nil in Hin.
Defined.

Lemma cards_none_selected pkg (l : list PurchasesPackage) :
  packageIdentifier pkg ∉ (packageIdentifier <$> l) →
  filter (λ c, PaywallScreen.card_selected c = true) (PaywallScreen.card (Some pkg) <$> l)
    = [].
Proof.
  induction l as [|x l IH]; [done|]. rewrite !fmap_cons. intros Hnot.
  apply not_elem_of_cons in Hnot as [Hne Hnot].
  rewrite filter_cons_False; [by apply IH|].
  cbn. destruct (String.eqb_spec (packageIdentifier pkg) (packageIdentifier x)); done.
Qed.

(** X15.  When the packages of the catalogue have distinct identifiers and
    the selected package is one of them, the paywall highlights exactly one
    card, the one of the selected package. *)
Theorem paywall_highlights_one_card props ctx st pkg :
  ctx_isLoading ctx = false →
  PaywallScreen.selectedPackage st = Some pkg →
  pkg ∈ PaywallScreen.packages ctx →
  NoDup (packageIdentifier <$> PaywallScreen.packages ctx) →
  ∃ p, PaywallScreen.render props ctx st = PaywallScreen.PaywallView p ∧
       filter (λ c, PaywallScreen.card_selected c = true) (PaywallScreen.cards p)
         = [PaywallScreen.card (Some pkg) pkg] ∧
       PaywallScreen.purchaseDisabled p = PaywallScreen.isPurchasing st.
Proof.
  intros Hload Hsel Hin Hnd. unfold PaywallScreen.render. rewrite Hload, Hsel.
  eexists. split; [reflexivity|]. cbn. split; [|reflexivity].
  induction (PaywallScreen.packages ctx) as [|x l IH]; [by apply elem_of_nil in Hin|].
  rewrite fmap_cons in Hnd. apply NoDup_cons in Hnd as [Hx Hnd]. rewrite fmap_cons.
  apply elem_of_cons in Hin as [<-|Hin].
  - rewrite filter_cons_True; [|cbn; by rewrite String.eqb_refl].
    f_equal. by apply cards_none_selected.
  - rewrite filter_cons_False; [by apply IH|].
    cbn. destruct (String.eqb_spec (packageIdentifier pkg) (packageIdentifier x)) as [Heq|];
      [|done].
    exfalso. apply Hx. rewrite <- Heq. by apply list_elem_of_fmap_2.
Qed.

Lemma paywall_highlights_one_card_witness :
  let ctx :=
    value (render Scenario.defaultProps
             (cells (PurchaseContext.init Scenario.ios Scenario.two_plans
                       initialWorld).2)
             None) in
  let st := {| PaywallScreen.selectedPackage := Some Scenario.pkgMonthly;
               PaywallScreen.isPurchasing := false |} in
  PaywallScreen.packages ctx = [Scenario.pkgAnnual; Scenario.pkgMonthly] ∧
  PaywallScreen.card_selected
    (PaywallScreen.card (Some Scenario.pkgMonthly) Scenario.pkgAnnual) = false ∧
  ∃ p,
    PaywallScreen.render
      {| PaywallScreen.onPurchaseSuccess := true; PaywallScreen.onClose := false;
         PaywallScreen.title := None; PaywallScreen.subtitle := None;
         PaywallScreen.features := None |} ctx st = PaywallScreen.PaywallView p ∧
    filter (λ c, PaywallScreen.card_selected c = true) (PaywallScreen.cards p)
      = [PaywallScreen.card (Some Scenario.pkgMonthly) Scenario.pkgMonthly] ∧
    PaywallScreen.purchaseDisabled p = false.
Proof.
  split; [reflexivity|]. split; [reflexivity|].
  apply (paywall_highlights_one_card
           {| PaywallScreen.onPurchaseSuccess := true; PaywallScreen.onClose := false;
              PaywallScreen.title := None; PaywallScreen.subtitle := None;
              PaywallScreen.features := None |}
           (value (render Scenario.defaultProps
                     (cells (PurchaseContext.init Scenario.ios Scenario.two_plans
                               initialWorld).2) None))
           {| PaywallScreen.selectedPackage := Some Scenario.pkgMonthly;
              PaywallScreen.isPurchasing := false |}
           Scenario.pkgMonthly).
  - reflexivity.
  - reflexivity.
  - apply list_elem_of_further. apply list_elem_of_here.
  - apply NoDup_cons. split.
    + intros Hin. apply list_elem_of_singleton in Hin. discriminate Hin.
    + apply NoDup_singleton.
Defined.

(** X16.  A catalogue that could not be fetched at start-up, or that has no
    current offering, is never made up for: after mount and any run of
    actions the paywall is shown with no package card, and the purchase
    button reads "Select a plan" and is disabled while nothing is
    selected. *)
Theorem paywall_empty_without_catalogue env sdk steps w props kept pprops :
  (∀ o, sdk_getOfferings sdk = Normal o → current o = None) →
  let st := cells (Session.session env sdk steps w).2 in
  let ctx := value (render props st kept) in
  ∃ p,
    PaywallScreen.render pprops ctx
      {| PaywallScreen.selectedPackage := None; PaywallScreen.isPurchasing := false |}
      = PaywallScreen.PaywallView p ∧
    PaywallScreen.cards p = [] ∧
    PaywallScreen.purchaseDisabled p = true ∧
    PaywallScreen.purchaseContent p = PaywallScreen.ButtonText "Select a plan".
Proof.
  intros Hcat st ctx.
  destruct (session_keeps_startup_results env sdk steps w) as (_ & _ & Hload & Hoff).
  fold st in Hload, Hoff.
  unfold PaywallScreen.render. subst ctx. cbn. rewrite Hload.
  eexists. split; [reflexivity|]. cbn. split; [|by split].
  unfold PaywallScreen.packages. cbn. rewrite Hoff.
  destruct (sdk_getOfferings sdk) as [o|e]; cbn; [|reflexivity].
  by rewrite (Hcat o eq_refl).
Qed.

Lemma paywall_empty_without_catalogue_witness :
  let st :=
    cells (Session.session Scenario.ios (Scenario.failing Scenario.offline)
             [(Session.Refresh, Scenario.online); (Session.Restore, Scenario.online)]
             initialWorld).2 in
  let ctx := value (render Scenario.defaultProps st None) in
  ∃ p,
    PaywallScreen.render
      {| PaywallScreen.onPurchaseSuccess := false; PaywallScreen.onClose := false;
         PaywallScreen.title := None; PaywallScreen.subtitle := None;
         PaywallScreen.features := None |} ctx
      {| PaywallScreen.selectedPackage := None; PaywallScreen.isPurchasing := false |}
      = PaywallScreen.PaywallView p ∧
    PaywallScreen.cards p = [] ∧
    PaywallScreen.purchaseDisabled p = true ∧
    PaywallScreen.purchaseContent p = PaywallScreen.ButtonText "Select a plan".
Proof.
  apply (paywall_empty_without_catalogue Scenario.ios (Scenario.failing Scenario.offline)
           [(Session.Refresh, Scenario.online); (Session.Restore, Scenario.online)]
           initialWorld Scenario.defaultProps None).
  intros o Ho. discriminate Ho.
Defined.

(** X17.  From mount on, [lastError] is either absent or a non-empty
    string, so the paywall's inline error text is exactly [lastError]: after
    mount and any run of actions the paywall is shown, not the spinner, and
    it displays a message iff one is set. *)
Theorem paywall_shows_last_error env sdk steps w props kept pprops pst :
  cells w = initialState →
  let st := cells (Session.session env sdk steps w).2 in
  let ctx := value (render props st kept) in
  (∀ s, error st = Some s → s ≠ "") ∧
  ∃ p, PaywallScreen.render pprops ctx pst = PaywallScreen.PaywallView p ∧
       PaywallScreen.errorText p = error st.
Proof.
  intros Hw st ctx.
  assert (Hne : ∀ s, error st = Some s → s ≠ "").
  { subst st. rewrite session_run. apply perform_all_error_presentable.
    intros s. rewrite init_cells, Hw. discriminate. }
  split; [exact Hne|].
  destruct (session_keeps_startup_results env sdk steps w) as (_ & _ & Hload & _).
  fold st in Hload. unfold PaywallScreen.render. subst ctx. cbn. rewrite Hload.
  eexists. split; [reflexivity|]. cbn.
  destruct (error st) as [s|] eqn:Hs; [|reflexivity].
  unfold truthy_string. destruct (String.eqb_spec s ""); [|reflexivity].
  by destruct (Hne s eq_refl).
Qed.

Lemma paywall_shows_last_error_witness :
  let st :=
    cells (Session.session Scenario.ios Scenario.online
             [(Session.Purchase Scenario.pkgAnnual, Scenario.failing Scenario.declined)]
             initialWorld).2 in
  let ctx := value (render Scenario.defaultProps st None) in
  ∃ p,
    PaywallScreen.render
      {| PaywallScreen.onPurchaseSuccess := false; PaywallScreen.onClose := false;
         PaywallScreen.title := None; PaywallScreen.subtitle := None;
         PaywallScreen.features := None |} ctx
      {| PaywallScreen.selectedPackage := Some Scenario.pkgAnnual;
         PaywallScreen.isPurchasing := false |}
      = PaywallScreen.PaywallView p ∧
    PaywallScreen.errorText p = Some "Card declined".
Proof.
  apply (proj2 (paywall_shows_last_error Scenario.ios Scenario.online
                  [(Session.Purchase Scenario.pkgAnnual,
                    Scenario.failing Scenario.declined)]
                  initialWorld Scenario.defaultProps None
                  {| PaywallScreen.onPurchaseSuccess := false;
                     PaywallScreen.onClose := false;
                     PaywallScreen.title := None; PaywallScreen.subtitle := None;
                     PaywallScreen.features := None |}
                  {| PaywallScreen.selectedPackage := Some Scenario.pkgAnnual;
                     PaywallScreen.isPurchasing := false |} eq_refl)).
Defined.

(** ** The subscription badge *)

(** X18.  In every render of the mounted provider the badge goes by the
    cells of that render: the placeholder exactly while [loading] is set;
    otherwise the premium label iff the read [active[id]] of the configured
    identifier on the held snapshot is defined, that is iff the identifier
    is a key of the active set or a name every object inherits, and the
    free label iff it is not. *)
Theorem badge_follows_current_snapshot fmt bprops props st r :
  renders props st r →
  let view := SubscriptionBadge.render fmt bprops (value r) in
  (view = SubscriptionBadge.LoadingBadge ↔ isLoading st = true) ∧
  ((∃ label expiry, view = SubscriptionBadge.PremiumBadge label expiry) ↔
     isLoading st = false ∧
     ∃ info, customerInfo st = Some info ∧
       (premiumEntitlementId_or_default props ∈ dom (active (entitlements info)) ∨
        premiumEntitlementId_or_default props ∈ Object_prototype_names)) ∧
  ((∃ label, view = SubscriptionBadge.FreeBadge label) ↔
     isLoading st = false ∧ isPremium props st = false).
Proof.
  intros Hr view. subst view.
  destruct (renders_value _ _ _ Hr) as (_ & Hp & _ & Hl & _).
  unfold SubscriptionBadge.render. rewrite Hl, Hp.
  pose proof (checkEntitlement_spec (customerInfo st)
                (premiumEntitlementId_or_default props)) as Hspec.
  rewrite <- isPremium_checkEntitlement in Hspec.
  destruct (isLoading st), (isPremium props st); cbn;
    (split; [|split]); split; intros H; try done; try (by destruct H);
    try (by destruct H as (? & ? & ?)); eauto.
  - split; [done|]. by apply Hspec.
  - destruct H as [_ H]. apply Hspec in H. discriminate.
Qed.

Lemma badge_follows_current_snapshot_witness :
  let st :=
    cells (PurchaseContext.init Scenario.ios Scenario.catalog_only initialWorld).2 in
  let r :=
    render Scenario.defaultProps st
      (Some (hook_checkEntitlement (render Scenario.defaultProps initialState None))) in
  ∃ label,
    SubscriptionBadge.render (λ d, d)
      {| SubscriptionBadge.premiumLabel := None; SubscriptionBadge.freeLabel := None;
         SubscriptionBadge.showExpiry := Some true |} (value r)
    = SubscriptionBadge.FreeBadge label.
Proof.
  apply (proj2 (proj2 (badge_follows_current_snapshot (λ d, d)
                         {| SubscriptionBadge.premiumLabel := None;
                            SubscriptionBadge.freeLabel := None;
                            SubscriptionBadge.showExpiry := Some true |}
                         Scenario.defaultProps _ _
                         (renders_after Scenario.defaultProps
                            (PurchaseContext.init Scenario.ios Scenario.catalog_only)
                            initialWorld _ (renders_mount Scenario.defaultProps))))).
  split; reflexivity.
Defined.

(** X19.  The renewal line of the badge is read from the entitlement named
    ["premium"], whatever identifier the provider was configured with: it
    is shown only with [showExpiry] set, the premium flag on, and a held
    snapshot whose active set has a ["premium"] entry with a non-empty
    expiration date, and it is that date as the device formats it. *)
Theorem badge_expiry_needs_premium_entry fmt bprops ctx label line :
  SubscriptionBadge.render fmt bprops ctx
    = SubscriptionBadge.PremiumBadge label (Some line) →
  SubscriptionBadge.showExpiry bprops = Some true ∧
  ctx_isPremium ctx = true ∧
  ∃ snapshot info date,
    ctx_customerInfo ctx = Some snapshot ∧
    active (entitlements snapshot) !! "premium" = Some info ∧
    expirationDate info = Some date ∧ date ≠ "" ∧
    line = "Renews " ++ fmt date.
Proof.
  unfold SubscriptionBadge.render.
  destruct (ctx_isLoading ctx); [discriminate|].
  destruct (ctx_isPremium ctx); [|discriminate].
  destruct (SubscriptionBadge.showExpiry bprops) as [[]|]; cbn; try discriminate.
  destruct (ctx_customerInfo ctx) as [snapshot|]; cbn; [|discriminate].
  destruct (active (entitlements snapshot) !! "premium") as [info|] eqn:Hinfo; cbn;
    [|discriminate].
  destruct (expirationDate info) as [date|] eqn:Hexp; [|discriminate].
  unfold truthy_string at 1.
  destruct (String.eqb_spec date "") as [|Hdate]; cbn; [discriminate|].
  destruct (truthy_string (fmt date)); [|discriminate].
  intros [= _ <-]. split; [reflexivity|]. split; [reflexivity|].
  exists snapshot, info, date.
  split; [reflexivity|]. split; [exact Hinfo|]. split; [exact Hexp|].
  split; [exact Hdate|reflexivity].
Qed.

Lemma badge_expiry_needs_premium_entry_witness :
  let ctx :=
    value (render Scenario.defaultProps
             (cells (PurchaseContext.purchasePackage Scenario.online Scenario.pkgAnnual
                       (PurchaseContext.init Scenario.ios Scenario.online
                          initialWorld).2).2) None) in
  ∃ snapshot info date,
    ctx_customerInfo ctx = Some snapshot ∧
    active (entitlements snapshot) !! "premium" = Some info ∧
    expirationDate info = Some date ∧ date ≠ "" ∧
    "Renews 2026-01-01" = "Renews " ++ date.
Proof.
  apply (proj2 (proj2 (badge_expiry_needs_premium_entry (λ d, d)
                         {| SubscriptionBadge.premiumLabel := None;
                            SubscriptionBadge.freeLabel := None;
                            SubscriptionBadge.showExpiry := Some true |}
                         (value (render Scenario.defaultProps
                                   (cells (PurchaseContext.purchasePackage Scenario.online
                                             Scenario.pkgAnnual
                                             (PurchaseContext.init Scenario.ios
                                                Scenario.online initialWorld).2).2) None))
                         "Premium" "Renews 2026-01-01" eq_refl))).
Defined.

(** ** The held snapshot over a session *)

Lemma perform_all_customerInfo steps w :
  customerInfo (cells (Session.perform_all steps w).2) =
  Session.latest_snapshot (customerInfo (cells w)) steps.
Proof.
  revert w. induction steps as [|[op sdk] rest IH]; intros w; [reflexivity|].
  rewrite perform_all_cons, IH, perform_customerInfo. reflexivity.
Qed.

(** X20.  After mount and any run of actions the provider holds the
    snapshot of the latest vendor call that fulfilled, the start-up fetch
    counting as the first; rejected calls in between leave no mark.  The
    premium flag is the read [active[id]] of the configured identifier on
    that snapshot: on iff the identifier is a key of its active set or a
    name every object inherits. *)
Theorem session_holds_latest_snapshot props env sdk steps w :
  let st := cells (Session.session env sdk steps w).2 in
  let latest :=
    Session.latest_snapshot
      (match sdk_getCustomerInfo sdk with Normal c => Some c | Throw _ => None end)
      steps in
  customerInfo st = latest ∧
  isPremium props st = checkEntitlement latest (premiumEntitlementId_or_default props) ∧
  (isPremium props st = true ↔
     ∃ snapshot, latest = Some snapshot ∧
       (premiumEntitlementId_or_default props ∈ dom (active (entitlements snapshot)) ∨
        premiumEntitlementId_or_default props ∈ Object_prototype_names)).
Proof.
  cbv zeta. rewrite session_run, isPremium_checkEntitlement, perform_all_customerInfo,
    init_cells. cbn. split; [reflexivity|]. split; [reflexivity|].
  apply checkEntitlement_spec.
Qed.

(** X21.  The restore button cannot stay stuck: for every vendor answer,
    once [handleRestore] has resolved the button is enabled again and shows
    its label, ["Restore Purchases"] unless the host passed another. *)
Theorem restore_button_reenabled props ctx sdk s :
  let out := RestorePurchasesButton.handleRestore props ctx sdk s in
  out.1 = Normal () ∧
  RestorePurchasesButton.render props (local out.2) =
    {| RestorePurchasesButton.disabled := false;
       RestorePurchasesButton.content :=
         RestorePurchasesButton.Label
           (default "Restore Purchases" (RestorePurchasesButton.label props)) |}.
Proof.
  destruct (restore_button_run props ctx sdk s) as (Hr & Hl & _).
  cbv zeta. by rewrite Hr, Hl.
Qed.
